(** * simple_http/server.py: request framing, parsing, routing and responses

    A shallow embedding of the single-connection HTTP file server of
    [src/simple_http/server.py].

    - Python [bytes] are lists of [byte]; Python [str] are lists of Unicode
      code points ([N]).
    - Request headers (a Python [dict] that is only looked up) are a [gmap];
      response headers (a [dict] literal that is iterated in insertion
      order) are association lists.
    - The filesystem, the clock and the Unicode tables behind [str.lower],
      [int] and [mimetypes] are not code of the repository: they are
      interfaces (type classes), and every theorem holds for all their
      implementations.  One small in-memory implementation is given so that
      the handlers can be run on concrete requests.
    - Every handler ends in [return build_response(code, reason, headers,
      body)]; here a handler returns these four arguments as a [response],
      and [handle_connection] applies [build_response] to them before
      sending.
    - [print] calls write to the console only and are left out. *)

From Stdlib Require Import ZArith NArith Lia Strings.String Strings.Ascii Strings.Byte.
From stdpp Require Import base option list gmap.

Local Open Scope N_scope.

(* ===================================================================== *)
(** ** Bytes and text *)
(* ===================================================================== *)

Definition bytes := list byte.
Definition text := list N.

(** A [bytes] literal [b'...'] (ASCII only, no escapes). *)
Definition B (s : string) : bytes := list_byte_of_string s.

(** A [str] literal ['...'] (ASCII only, no escapes). *)
Definition T (s : string) : text := map Byte.to_N (list_byte_of_string s).

Definition byte_of_N (n : N) : byte := byte_of_ascii (ascii_of_N n).

#[global] Instance byte_eq_decision : EqDecision byte := Byte.byte_eq_dec.

Definition CRLF_b : bytes := [x0d; x0a].
Definition CRLFCRLF_b : bytes := [x0d; x0a; x0d; x0a].
Definition CRLF : text := [13; 10].
Definition NL : text := [10].

(** [len(x)] *)
Definition len {A} (l : list A) : nat := length l.

(** [str(n)] for a non-negative integer: its decimal digits. *)
Fixpoint text_of_uint (d : Decimal.uint) : text :=
  match d with
  | Decimal.Nil => []
  | Decimal.D0 d => 48 :: text_of_uint d
  | Decimal.D1 d => 49 :: text_of_uint d
  | Decimal.D2 d => 50 :: text_of_uint d
  | Decimal.D3 d => 51 :: text_of_uint d
  | Decimal.D4 d => 52 :: text_of_uint d
  | Decimal.D5 d => 53 :: text_of_uint d
  | Decimal.D6 d => 54 :: text_of_uint d
  | Decimal.D7 d => 55 :: text_of_uint d
  | Decimal.D8 d => 56 :: text_of_uint d
  | Decimal.D9 d => 57 :: text_of_uint d
  end.

Definition str (n : nat) : text := text_of_uint (Nat.to_uint n).

(* --------------------------------------------------------------------- *)
(** *** Substring search and splitting (shared by [bytes] and [str]) *)
(* --------------------------------------------------------------------- *)

Section Sequences.
Context {A : Type} `{EqDecision A}.

(** [s.startswith(p)] *)
Fixpoint startswith (p s : list A) : bool :=
  match p, s with
  | [], _ => true
  | _ :: _, [] => false
  | x :: p', y :: s' => if decide (x = y) then startswith p' s' else false
  end.

(** [s.find(sub)]: index of the first occurrence, [None] for Python's -1. *)
Fixpoint find (sub s : list A) : option nat :=
  if startswith sub s then Some 0%nat
  else match s with
       | [] => None
       | _ :: s' => S <$> find sub s'
       end.

(** [sub in s] *)
Definition contains (sub s : list A) : bool :=
  match find sub s with Some _ => true | None => false end.

(** [s.split(sep, 1)] *)
Definition split_once (sep s : list A) : list (list A) :=
  match find sep s with
  | None => [s]
  | Some i => [take i s; drop (i + length sep) s]
  end.

(** [s.split(sep)] for a non-empty [sep]: cut at each occurrence found
    left to right, resuming after the separator.  There are at most
    [length s] cuts. *)
Fixpoint split_upto (n : nat) (sep s : list A) : list (list A) :=
  match n with
  | O => [s]
  | S n' =>
      match find sep s with
      | None => [s]
      | Some i => take i s :: split_upto n' sep (drop (i + length sep) s)
      end
  end.

Definition split (sep s : list A) : list (list A) :=
  split_upto (length s) sep s.

(** [s.lstrip(chars)] with a predicate for the stripped characters. *)
Fixpoint lstrip_by (p : A → bool) (s : list A) : list A :=
  match s with
  | [] => []
  | c :: s' => if p c then lstrip_by p s' else s
  end.

Definition rstrip_by (p : A → bool) (s : list A) : list A :=
  rev (lstrip_by p (rev s)).

(** [s.rfind(sub)] + 1 for a one-character [sub]: the length of the
    prefix that ends with the last occurrence of [c], [0] if none. *)
Fixpoint after_last (c : A) (s : list A) : nat :=
  match s with
  | [] => 0%nat
  | x :: s' =>
      match after_last c s' with
      | O => if decide (x = c) then 1%nat else 0%nat
      | S k => S (S k)
      end
  end.
End Sequences.

(** [s.lstrip('/')] *)
Definition lstrip_slash (s : text) : text := lstrip_by (λ c, bool_decide (c = 47)) s.

(** Python's [str.isspace] for one character: the code points whose
    bidirectional class is WS, B or S, or whose category is Zs. *)
Definition is_space (c : N) : bool :=
  ((9 <=? c) && (c <=? 13)) || ((28 <=? c) && (c <=? 32))
  || (c =? 133) || (c =? 160) || (c =? 5760)
  || ((8192 <=? c) && (c <=? 8202))
  || (c =? 8232) || (c =? 8233) || (c =? 8239) || (c =? 8287) || (c =? 12288).

(** [s.strip()] *)
Definition strip (s : text) : text := rstrip_by is_space (lstrip_by is_space s).

(* --------------------------------------------------------------------- *)
(** *** UTF-8 *)
(* --------------------------------------------------------------------- *)

Definition is_continuation (b : N) : bool := (128 <=? b) && (b <=? 191).

(** [b.decode('utf-8', errors='ignore')].  An ill-formed sequence is
    dropped up to (not including) the byte that made it ill-formed; a
    sequence cut short by the end of the input is dropped whole. *)
Fixpoint utf8_decode_ignore (s : bytes) : text :=
  match s with
  | [] => []
  | b0 :: r0 =>
      let c0 := Byte.to_N b0 in
      if c0 <? 128 then c0 :: utf8_decode_ignore r0
      else if c0 <? 194 then utf8_decode_ignore r0
      else if c0 <? 224 then
        match r0 with
        | [] => []
        | b1 :: r1 =>
            let c1 := Byte.to_N b1 in
            if is_continuation c1
            then ((c0 - 192) * 64 + (c1 - 128)) :: utf8_decode_ignore r1
            else utf8_decode_ignore r0
        end
      else if c0 <? 240 then
        match r0 with
        | [] => []
        | b1 :: r1 =>
            let c1 := Byte.to_N b1 in
            if negb (is_continuation c1)
               || (if c1 <? 160 then c0 =? 224 else c0 =? 237)
            then utf8_decode_ignore r0
            else
              match r1 with
              | [] => []
              | b2 :: r2 =>
                  let c2 := Byte.to_N b2 in
                  if is_continuation c2
                  then ((c0 - 224) * 4096 + (c1 - 128) * 64 + (c2 - 128))
                         :: utf8_decode_ignore r2
                  else utf8_decode_ignore r1
              end
        end
      else if c0 <? 245 then
        match r0 with
        | [] => []
        | b1 :: r1 =>
            let c1 := Byte.to_N b1 in
            if negb (is_continuation c1)
               || (if c1 <? 144 then c0 =? 240 else c0 =? 244)
            then utf8_decode_ignore r0
            else
              match r1 with
              | [] => []
              | b2 :: r2 =>
                  let c2 := Byte.to_N b2 in
                  if negb (is_continuation c2) then utf8_decode_ignore r1
                  else
                    match r2 with
                    | [] => []
                    | b3 :: r3 =>
                        let c3 := Byte.to_N b3 in
                        if is_continuation c3
                        then ((c0 - 240) * 262144 + (c1 - 128) * 4096
                              + (c2 - 128) * 64 + (c3 - 128))
                               :: utf8_decode_ignore r3
                        else utf8_decode_ignore r2
                    end
              end
        end
      else utf8_decode_ignore r0
  end.

(** The UTF-8 bytes of one code point.  (Python refuses to encode the
    surrogates D800-DFFF; [utf8_decode_ignore] never produces them.) *)
Definition utf8_encode_char (c : N) : bytes :=
  if c <? 128 then [byte_of_N c]
  else if c <? 2048 then [byte_of_N (192 + c / 64); byte_of_N (128 + c mod 64)]
  else if c <? 65536 then
    [byte_of_N (224 + c / 4096); byte_of_N (128 + (c / 64) mod 64);
     byte_of_N (128 + c mod 64)]
  else
    [byte_of_N (240 + c / 262144); byte_of_N (128 + (c / 4096) mod 64);
     byte_of_N (128 + (c / 64) mod 64); byte_of_N (128 + c mod 64)].

(** [s.encode('utf-8')] *)
Definition utf8_encode (s : text) : bytes := concat (map utf8_encode_char s).

(* ===================================================================== *)
(** ** The outside world *)
(* ===================================================================== *)

(** A computation on the outside world [W]: it leaves a world behind and
    returns a value, or [None] when it raised an exception. *)
Definition io (W A : Type) : Type := W → W * option A.

Section IO.
Context {W : Type}.

Definition io_ret {A} (a : A) : io W A := λ w, (w, Some a).

Definition io_bind {A B} (f : A → io W B) (m : io W A) : io W B :=
  λ w, match m w with
       | (w', Some a) => f a w'
       | (w', None) => (w', None)
       end.

(** [try: m  except Exception: return dflt] *)
Definition try_except {A} (m : io W A) (dflt : A) : W → W * A :=
  λ w, match m w with
       | (w', Some a) => (w', a)
       | (w', None) => (w', dflt)
       end.

(** [with open(...) as f: body]: the file is closed however [body] ends. *)
Definition with_open {A} (opn cls : io W unit) (body : io W A) : io W A :=
  λ w, match opn w with
       | (w1, None) => (w1, None)
       | (w1, Some _) =>
           match body w1 with
           | (w2, r) =>
               match cls w2 with
               | (w3, Some _) => (w3, r)
               | (w3, None) => (w3, None)
               end
           end
       end.
End IO.

#[global] Instance io_mret {W} : MRet (io W) := λ A, io_ret.
#[global] Instance io_mbind {W} : MBind (io W) := λ A B, io_bind.

Inductive open_mode := RB | WB | AT.

(** The operating system as the server uses it.  An open file is named by
    its path. *)
Class OS (W : Type) := {
  os_path_isfile : W → text → bool;
  os_path_getsize : text → io W nat;
  os_makedirs : text → io W unit;            (* exist_ok=True *)
  file_open : text → open_mode → io W unit;
  file_read : text → io W bytes;
  file_write : text → bytes → io W unit;     (* binary mode *)
  file_write_str : text → text → io W unit;  (* text mode *)
  file_close : text → io W unit;
  (** [datetime.now().strftime('%Y-%m-%d %H:%M:%S')] *)
  datetime_now : W → text
}.

(** What the server takes from Python's libraries and its environment. *)
Class PyLib := {
  str_lower : text → text;          (* str.lower *)
  int_of_str : text → option Z;     (* int(s); None: ValueError *)
  guess_type : text → option text;  (* mimetypes.guess_type(p)[0] *)
  os_path_expanduser : text → text
}.

(* ===================================================================== *)
(** ** os.path (POSIX) *)
(* ===================================================================== *)

Definition is_slash (c : N) : bool := bool_decide (c = 47).

Definition endswith_slash (p : text) : bool :=
  match last p with Some c => is_slash c | None => false end.

(** [os.path.join(a, b)] *)
Definition os_path_join (a b : text) : text :=
  if startswith (T "/") b then b
  else if bool_decide (a = []) || endswith_slash a then a ++ b
  else a ++ T "/" ++ b.

(** [os.path.dirname(p)] *)
Definition os_path_dirname (p : text) : text :=
  let head := take (after_last 47 p) p in
  if negb (bool_decide (head = [])) && negb (forallb is_slash head)
  then rstrip_by is_slash head
  else head.

(** [os.path.basename(p)] *)
Definition os_path_basename (p : text) : text := drop (after_last 47 p) p.

(* ===================================================================== *)
(** ** The server *)
(* ===================================================================== *)

Record request := Request {
  rq_method : text;
  rq_path : text;
  rq_version : text;
  rq_headers : gmap text text;
  rq_body : bytes
}.

(** The four arguments of a [build_response] call. *)
Record response := Response {
  status_code : nat;
  reason : text;
  headers : list (text * text);
  body : bytes
}.

(** [headers[key]] on a response header dict. *)
Fixpoint header (key : text) (hs : list (text * text)) : option text :=
  match hs with
  | [] => None
  | (k, v) :: hs' => if decide (k = key) then Some v else header key hs'
  end.

(** [build_response] (lines 84-103) *)
Definition build_response (status_code : nat) (reason : text)
    (headers : list (text * text)) (body : bytes) : bytes :=
  let status_line := T "HTTP/1.1 " ++ str status_code ++ T " " ++ reason ++ CRLF in
  let header_lines := map (λ kv, fst kv ++ T ": " ++ snd kv ++ CRLF) headers in
  utf8_encode status_line
    ++ concat (map utf8_encode header_lines)
    ++ CRLF_b
    ++ body.

Definition serialize (r : response) : bytes :=
  build_response (status_code r) (reason r) (headers r) (body r).

Section Server.
Context `{PyLib}.

Definition SERVER_ROOT : text := os_path_expanduser (T "~/simple_http/www").
Definition POST_DATA_FILE : text := os_path_expanduser (T "~/simple_http/post_data.txt").

(** One round of the header loop of [parse_request] (lines 44-46). *)
Definition add_header_line (headers : gmap text text) (line : text) : gmap text text :=
  if contains (T ":") line then
    match split_once (T ":") line with
    | [key; value] => <[str_lower (strip key) := strip value]> headers
    | _ => headers
    end
  else headers.

(** The bytes before the first blank line (lines 23-27). *)
Definition header_part (raw_request : bytes) : bytes :=
  if contains CRLFCRLF_b raw_request
  then hd [] (split_once CRLFCRLF_b raw_request)
  else raw_request.

Definition body_part (raw_request : bytes) : bytes :=
  if contains CRLFCRLF_b raw_request
  then nth 1 (split_once CRLFCRLF_b raw_request) []
  else [].

(** The lines of the decoded header block (lines 30-31). *)
Definition header_lines (raw_request : bytes) : list text :=
  split CRLF (utf8_decode_ignore (header_part raw_request)).

(** [parse_request] (lines 16-51); [None] is the all-[None] tuple. *)
Definition parse_request (raw_request : bytes) : option request :=
  let body := body_part raw_request in
  match header_lines raw_request with
  | [] => None
  | request_line :: rest =>
      match split (T " ") request_line with
      | [method; path; version] =>
          Some (Request method path version (foldl add_header_line ∅ rest) body)
      | _ => None
      end
  end.

(** [resolve_path] (lines 53-75) *)
Definition resolve_path (http_path : text) : option text :=
  let http_path :=
    if contains (T "?") http_path then hd [] (split (T "?") http_path)
    else http_path in
  let http_path :=
    if decide (http_path = T "/") then T "/index.html" else http_path in
  let relative_path := lstrip_slash http_path in
  if contains (T "..") relative_path then None
  else Some (os_path_join SERVER_ROOT relative_path).

(** [get_mime_type] (lines 77-82) *)
Definition get_mime_type (filepath : text) : text :=
  match guess_type filepath with
  | Some (c :: t) => c :: t
  | _ => T "application/octet-stream"
  end.

(** The 404 of [handle_get] (lines 113-119). *)
Definition not_found_get : response :=
  let body := B "404 Not Found" in
  Response 404 (T "Not Found")
    [(T "Content-Type", T "text/html");
     (T "Content-Length", str (len body));
     (T "Connection", T "close")] body.

(** The 500 of [handle_get], [handle_post] and [handle_put]
    (lines 135-141, 167-173, 229-235). *)
Definition internal_error : response :=
  let body := B "500 Internal Server Error" in
  Response 500 (T "Internal Server Error")
    [(T "Content-Type", T "text/html");
     (T "Content-Length", str (len body));
     (T "Connection", T "close")] body.

(** [handle_unsupported] (lines 272-283) *)
Definition handle_unsupported (method : text) : response :=
  let body := B "Method Not Allowed" in
  Response 405 (T "Method Not Allowed")
    [(T "Content-Type", T "text/plain");
     (T "Allow", T "GET, POST, PUT, HEAD");
     (T "Content-Length", str (len body));
     (T "Connection", T "close")] body.

Section Handlers.
Context {W : Type} `{OS W}.

(** [handle_get] (lines 105-141) *)
Definition handle_get (path : text) (hs : gmap text text) : W → W * response :=
  λ w,
  match resolve_path path with
  | None => (w, not_found_get)
  | Some filepath =>
      if negb (os_path_isfile w filepath) then (w, not_found_get)
      else
        try_except
          (body ← with_open (file_open filepath RB) (file_close filepath)
                    (file_read filepath);
           let mime_type := get_mime_type filepath in
           mret (Response 200 (T "OK")
                   [(T "Content-Type", mime_type);
                    (T "Content-Length", str (len body));
                    (T "Connection", T "close")] body))
          internal_error w
  end.

(** [handle_post] (lines 143-173) *)
Definition handle_post (path : text) (hs : gmap text text) (body : bytes)
    : W → W * response :=
  λ w,
  if negb (bool_decide (path = T "/post")) then (w, handle_unsupported (T "POST"))
  else
    try_except
      (let timestamp := datetime_now w in
       _ ← with_open (file_open POST_DATA_FILE AT) (file_close POST_DATA_FILE)
             (_ ← file_write_str POST_DATA_FILE (NL ++ T "[" ++ timestamp ++ T "]" ++ NL);
              _ ← file_write_str POST_DATA_FILE (utf8_decode_ignore body);
              file_write_str POST_DATA_FILE NL);
       let response_body := B "POST received and stored." in
       mret (Response 200 (T "OK")
               [(T "Content-Type", T "text/plain");
                (T "Content-Length", str (len response_body));
                (T "Connection", T "close")] response_body))
      internal_error w.

(** [handle_put] (lines 175-235) *)
Definition handle_put (path : text) (hs : gmap text text) (body : bytes)
    : W → W * response :=
  λ w,
  let relative_path := lstrip_slash path in
  if contains (T "..") relative_path then
    let response_body := B "400 Bad Request" in
    (w, Response 400 (T "Bad Request")
          [(T "Content-Type", T "text/plain");
           (T "Content-Length", str (len response_body));
           (T "Connection", T "close")] response_body)
  else
    let base_dir := os_path_expanduser (T "~/simple_http") in
    let full_path := os_path_join base_dir relative_path in
    let file_exists := os_path_isfile w full_path in
    try_except
      (_ ← os_makedirs (os_path_dirname full_path);
       _ ← with_open (file_open full_path WB) (file_close full_path)
             (file_write full_path body);
       let filename := os_path_basename full_path in
       let response_body := utf8_encode (T "PUT stored as " ++ filename) in
       if file_exists then
         mret (Response 200 (T "OK")
                 [(T "Content-Type", T "text/plain");
                  (T "Content-Length", str (len response_body));
                  (T "Connection", T "close")] response_body)
       else
         mret (Response 201 (T "Created")
                 [(T "Content-Type", T "text/plain");
                  (T "Content-Length", str (len response_body));
                  (T "Location", path);
                  (T "Connection", T "close")] response_body))
      internal_error w.

(** [handle_head] (lines 237-270) *)
Definition handle_head (path : text) (hs : gmap text text) : W → W * response :=
  λ w,
  let not_found :=
    Response 404 (T "Not Found")
      [(T "Content-Type", T "text/html");
       (T "Content-Length", T "14");
       (T "Connection", T "close")] [] in
  match resolve_path path with
  | None => (w, not_found)
  | Some filepath =>
      if negb (os_path_isfile w filepath) then (w, not_found)
      else
        try_except
          (file_size ← os_path_getsize filepath;
           let mime_type := get_mime_type filepath in
           mret (Response 200 (T "OK")
                   [(T "Content-Type", mime_type);
                    (T "Content-Length", str file_size);
                    (T "Connection", T "close")] []))
          (Response 500 (T "Internal Server Error")
             [(T "Content-Type", T "text/html");
              (T "Content-Length", T "26");
              (T "Connection", T "close")] []) w
  end.

(** [handle_request] (lines 285-300) *)
Definition handle_request (method path version : text) (hs : gmap text text)
    (body : bytes) : W → W * response :=
  if decide (method = T "GET") then handle_get path hs
  else if decide (method = T "POST") then handle_post path hs body
  else if decide (method = T "PUT") then handle_put path hs body
  else if decide (method = T "HEAD") then handle_head path hs
  else λ w, (w, handle_unsupported method).

(** Lines 359-368 of [start_server]: parse the received bytes and
    choose the response. *)
Definition bad_request : response :=
  Response 400 (T "Bad Request")
    [(T "Content-Length", T "11"); (T "Connection", T "close")]
    (B "Bad Request").

Definition respond (raw_request : bytes) : W → W * response :=
  match parse_request raw_request with
  | None => λ w, (w, bad_request)
  | Some rq =>
      handle_request (rq_method rq) (rq_path rq) (rq_version rq)
        (rq_headers rq) (rq_body rq)
  end.
End Handlers.

(** *** Receiving a request (lines 330-356 of [start_server]) *)

Inductive received := Received (raw_request : bytes) | Raised.

Section Reader.
(** [recv n] is what the [n]-th call of [client_socket.recv(BUFFER_SIZE)]
    returns; an empty result means the peer has closed. *)
Variable recv : nat → bytes.

(** The inner loop (lines 347-352), entered before call number [calls].
    [None]: still looping when the fuel ran out. *)
Fixpoint read_body (fuel calls : nat) (raw_request : bytes)
    (current_body_length content_length : Z) : option bytes :=
  match fuel with
  | O => None
  | S fuel' =>
      if (current_body_length <? content_length)%Z then
        match recv calls with
        | [] => Some raw_request
        | chunk =>
            read_body fuel' (S calls) (raw_request ++ chunk)
              (current_body_length + Z.of_nat (len chunk))%Z content_length
        end
      else Some raw_request
  end.

(** The outer loop (lines 331-356). *)
Fixpoint read_request (fuel calls : nat) (raw_request : bytes) : option received :=
  match fuel with
  | O => None
  | S fuel' =>
      let chunk := recv calls in
      let raw_request := raw_request ++ chunk in
      if contains CRLFCRLF_b raw_request then
        match parse_request raw_request with
        | Some rq =>
            if bool_decide (rq_method rq ∈ [T "POST"; T "PUT"]) then
              match rq_headers rq !! T "content-length" with
              | Some v =>
                  match int_of_str v with
                  | None => Some Raised
                  | Some content_length =>
                      match find CRLFCRLF_b raw_request with
                      | None => Some Raised
                      | Some i =>
                          let body_start := (i + 4)%nat in
                          let current_body_length :=
                            (Z.of_nat (len raw_request) - Z.of_nat body_start)%Z in
                          Received <$>
                            read_body fuel' (S calls) raw_request
                              current_body_length content_length
                      end
                  end
              | None => Some (Received raw_request)
              end
            else Some (Received raw_request)
        | None => Some (Received raw_request)
        end
      else
        match chunk with
        | [] => Some (Received raw_request)
        | _ => read_request fuel' (S calls) raw_request
        end
  end.

(** One accepted connection (lines 328-377): what is sent back, if
    anything.  [None]: the read loop has not ended within [fuel]. *)
Definition handle_connection {W : Type} `{OS W} (fuel : nat) (w : W)
    : option (W * option bytes) :=
  match read_request fuel 0 [] with
  | None => None
  | Some Raised => Some (w, None)
  | Some (Received raw_request) =>
      let (w', r) := respond raw_request w in
      Some (w', Some (serialize r))
  end.
End Reader.
End Server.

(* ===================================================================== *)
(** ** An implementation of the interfaces, to run the server on *)
(* ===================================================================== *)

(** Letters and numerals of ASCII only: exact where the argument is ASCII
    and, for [int], a plain optionally signed decimal numeral. *)
Definition ascii_lower (s : text) : text :=
  map (λ c, if (65 <=? c) && (c <=? 90) then c + 32 else c) s.

Fixpoint decimal_value (acc : Z) (s : text) : option Z :=
  match s with
  | [] => Some acc
  | c :: s' =>
      if (48 <=? c) && (c <=? 57)
      then decimal_value (10 * acc + Z.of_N (c - 48))%Z s'
      else None
  end.

Definition ascii_int (s : text) : option Z :=
  match strip s with
  | [] => None
  | 45 :: c :: d => Z.opp <$> decimal_value 0 (c :: d)
  | 43 :: c :: d => decimal_value 0 (c :: d)
  | 43 :: [] | 45 :: [] => None
  | d => decimal_value 0 d
  end.

Definition endswith (suffix s : text) : bool := startswith (rev suffix) (rev s).

Definition suffix_type (p : text) : option text :=
  if endswith (T ".html") p then Some (T "text/html")
  else if endswith (T ".txt") p then Some (T "text/plain")
  else None.

Definition home_expanduser (p : text) : text :=
  match p with
  | 126 :: rest => T "/home/user" ++ rest
  | _ => p
  end.

#[global] Instance ascii_pylib : PyLib := {|
  str_lower := ascii_lower;
  int_of_str := ascii_int;
  guess_type := suffix_type;
  os_path_expanduser := home_expanduser
|}.

(** A filesystem in memory, keyed by the path as written. *)
Inductive node := File (content : bytes) | Dir.

Record mem := Mem { nodes : gmap text node; clock : text }.

Definition mem_isfile (m : mem) (p : text) : bool :=
  match nodes m !! p with Some (File _) => true | _ => false end.

Definition mem_getsize (p : text) : io mem nat :=
  λ m, match nodes m !! p with
       | Some (File c) => (m, Some (length c))
       | Some Dir => (m, Some 4096%nat)
       | None => (m, None)
       end.

Definition mem_makedirs (d : text) : io mem unit :=
  λ m, match d, nodes m !! d with
       | [], _ => (m, None)
       | _, Some (File _) => (m, None)
       | _, _ => (Mem (<[d := Dir]> (nodes m)) (clock m), Some ())
       end.

(** Opening for writing needs a file name whose directory exists. *)
Definition mem_can_create (m : mem) (p : text) : bool :=
  negb (endswith_slash p) && negb (bool_decide (p = []))
  && match nodes m !! os_path_dirname p with Some Dir => true | _ => false end.

Definition mem_open (p : text) (mode : open_mode) : io mem unit :=
  λ m, match mode, nodes m !! p with
       | RB, Some (File _) => (m, Some ())
       | RB, _ => (m, None)
       | _, Some Dir => (m, None)
       | WB, _ =>
           if mem_can_create m p
           then (Mem (<[p := File []]> (nodes m)) (clock m), Some ())
           else (m, None)
       | AT, Some (File _) => (m, Some ())
       | AT, None =>
           if mem_can_create m p
           then (Mem (<[p := File []]> (nodes m)) (clock m), Some ())
           else (m, None)
       end.

Definition mem_read (p : text) : io mem bytes :=
  λ m, match nodes m !! p with
       | Some (File c) => (m, Some c)
       | _ => (m, None)
       end.

Definition mem_write (p : text) (b : bytes) : io mem unit :=
  λ m, match nodes m !! p with
       | Some (File c) => (Mem (<[p := File (c ++ b)]> (nodes m)) (clock m), Some ())
       | _ => (m, None)
       end.

#[global] Instance mem_os : OS mem := {|
  os_path_isfile := mem_isfile;
  os_path_getsize := mem_getsize;
  os_makedirs := mem_makedirs;
  file_open := mem_open;
  file_read := mem_read;
  file_write := mem_write;
  file_write_str := λ p s, mem_write p (utf8_encode s);
  file_close := λ _, mret ();
  datetime_now := clock
|}.

(* ===================================================================== *)
(** ** Notions used in the statements *)
(* ===================================================================== *)

(** The request path without its [?query]. *)
Definition strip_query (http_path : text) : text :=
  match find (T "?") http_path with
  | Some i => take i http_path
  | None => http_path
  end.

(** The three headers every handler sets. *)
Definition has_standard_headers (r : response) : Prop :=
  is_Some (header (T "Content-Type") (headers r))
  ∧ is_Some (header (T "Content-Length") (headers r))
  ∧ header (T "Connection") (headers r) = Some (T "close").

(** The responses the handlers choose from. *)
Definition ok_file (mime_type : text) (size : nat) (body : bytes) : response :=
  Response 200 (T "OK")
    [(T "Content-Type", mime_type);
     (T "Content-Length", str size);
     (T "Connection", T "close")] body.

Definition not_found_head : response :=
  Response 404 (T "Not Found")
    [(T "Content-Type", T "text/html");
     (T "Content-Length", T "14");
     (T "Connection", T "close")] [].

Definition head_error : response :=
  Response 500 (T "Internal Server Error")
    [(T "Content-Type", T "text/html");
     (T "Content-Length", T "26");
     (T "Connection", T "close")] [].

Definition post_stored : response :=
  Response 200 (T "OK")
    [(T "Content-Type", T "text/plain");
     (T "Content-Length", str (len (B "POST received and stored.")));
     (T "Connection", T "close")] (B "POST received and stored.").

Definition put_forbidden : response :=
  Response 400 (T "Bad Request")
    [(T "Content-Type", T "text/plain");
     (T "Content-Length", str (len (B "400 Bad Request")));
     (T "Connection", T "close")] (B "400 Bad Request").

Definition put_stored (created : bool) (path filename : text) : response :=
  let response_body := utf8_encode (T "PUT stored as " ++ filename) in
  if created then
    Response 201 (T "Created")
      [(T "Content-Type", T "text/plain");
       (T "Content-Length", str (len response_body));
       (T "Location", path);
       (T "Connection", T "close")] response_body
  else
    Response 200 (T "OK")
      [(T "Content-Type", T "text/plain");
       (T "Content-Length", str (len response_body));
       (T "Connection", T "close")] response_body.

(** [Content-Length] is the byte length of the body passed to
    [build_response]. *)
Definition content_length_exact (r : response) : Prop :=
  header (T "Content-Length") (headers r) = Some (str (len (body r))).

(** The bytes accumulated after [n] calls of [recv]. *)
Fixpoint sent (recv : nat → bytes) (n : nat) : bytes :=
  match n with
  | O => []
  | S n' => sent recv n' ++ recv n'
  end.

Section Notions.
Context `{PyLib}.

(** The file a PUT path designates. *)
Definition put_target (path : text) : text :=
  os_path_join (os_path_expanduser (T "~/simple_http")) (lstrip_slash path).

(** The three pieces [handle_post] writes to the log, in order. *)
Definition log_entry (timestamp : text) (request_body : bytes) : list text :=
  [NL ++ T "[" ++ timestamp ++ T "]" ++ NL;
   utf8_decode_ignore request_body;
   NL].

(** The request line: the first line of the decoded header block. *)
Definition request_line (raw_request : bytes) : text :=
  hd [] (header_lines raw_request).

(** A header line as the specification reads it: cut at the first [':'],
    both sides trimmed, the key lowercased; no entry without a [':']. *)
Definition header_entry (line : text) : option (text * text) :=
  match find (T ":") line with
  | Some i => Some (str_lower (strip (take i line)), strip (drop (S i) line))
  | None => None
  end.

(** The value of the last header line whose key is [key]. *)
Definition last_value (key : text) (lines : list text) : option text :=
  last (omap (λ line,
                match header_entry line with
                | Some (k, v) => if decide (k = key) then Some v else None
                | None => None
                end) lines).
End Notions.

(* ===================================================================== *)
(** ** Concrete requests and worlds *)
(* ===================================================================== *)

(** [GET /index.html] without a version. *)
Definition two_token_request : bytes :=
  B "GET /index.html" ++ CRLFCRLF_b.

(** A request with a repeated header, a line without colon, and a body. *)
Definition duplicate_headers_request : bytes :=
  B "GET /index.html HTTP/1.1" ++ CRLF_b
  ++ B "Host:  Example.com " ++ CRLF_b
  ++ B "no colon here" ++ CRLF_b
  ++ B "HOST: b:c" ++ CRLFCRLF_b
  ++ B "body".

Definition duplicate_headers_parsed : request :=
  Request (T "GET") (T "/index.html") (T "HTTP/1.1")
    (<[T "host" := T "b:c"]> (<[T "host" := T "Example.com"]> ∅))
    (B "body").

(** A peer that announces ten body bytes, sends five of them in two
    pieces and closes. *)
Definition early_close_stream (n : nat) : bytes :=
  nth n [B "POST /post HTTP/1.1" ++ CRLF_b ++ B "Content-Length: 10" ++ CRLFCRLF_b
           ++ B "hel";
         B "lo"] [].

Definition early_close_parsed : request :=
  Request (T "POST") (T "/post") (T "HTTP/1.1")
    (<[T "content-length" := T "10"]> ∅) (B "hello").

Definition empty_world : mem := Mem ∅ (T "2024-05-06 07:08:09").

(** A home directory with [~/simple_http/www/index.html]. *)
Definition site_world : mem :=
  Mem (<[T "/home/user/simple_http/www/index.html" := File (B "hello")]>
         (<[T "/home/user/simple_http/www" := Dir]>
            (<[T "/home/user/simple_http" := Dir]> ∅)))
      (T "2024-05-06 07:08:09").

(* ===================================================================== *)
(** ** Notions and inputs for the further properties *)
(* ===================================================================== *)

(** [sep.join(parts)] *)
Fixpoint join {A} (sep : list A) (parts : list (list A)) : list A :=
  match parts with
  | [] => []
  | [x] => x
  | x :: rest => x ++ sep ++ join sep rest
  end.

(** The status codes the server uses. *)
Definition status_codes : list nat := [200; 201; 400; 404; 405; 500]%nat.

(** A response head as [build_response] lays it out: every line followed
    by CRLF. *)
Definition crlf_lines (lines : list bytes) : bytes :=
  concat (map (λ l, l ++ CRLF_b) lines).

(** The lines of a response head, before their CRLF: the status line and
    one line for each header, in order. *)
Definition response_head_lines (status_code : nat) (reason : text)
    (headers : list (text * text)) : list bytes :=
  utf8_encode (T "HTTP/1.1 " ++ str status_code ++ T " " ++ reason)
  :: map (λ kv, utf8_encode (fst kv ++ T ": " ++ snd kv)) headers.

(** The text is made of Unicode code points and has no carriage return. *)
Definition no_cr (s : text) : Prop :=
  Forall (λ c, c < 1114112 ∧ c ≠ 13) s.

Definition get_root_request : bytes := B "GET / HTTP/1.1" ++ CRLFCRLF_b.

(** A GET that arrives in three pieces, the last one with bytes beyond the
    blank line. *)
Definition get_in_pieces (n : nat) : bytes :=
  nth n [B "GET /ind"; B "ex.html HTTP/1.1" ++ CRLF_b ++ B "Host: x" ++ CRLF_b;
         CRLF_b ++ B "extra"] [].

(** A PUT whose ten announced body bytes arrive in three pieces, with two
    more bytes than announced in the last one. *)
Definition put_in_pieces (n : nat) : bytes :=
  nth n [B "PUT /notes/a.txt HTTP/1.1" ++ CRLF_b ++ B "Content-Length: 10" ++ CRLFCRLF_b
           ++ B "0123";
         B "4567";
         B "89ab";
         B "never read"] [].


(** A peer that closes before the blank line. *)
Definition get_cut_short (n : nat) : bytes :=
  nth n [B "GET / HTTP/1.1" ++ CRLF_b; B "Host: x"] [].

(* ===================================================================== *)
(** ** Facts about searching and splitting *)
(* ===================================================================== *)

Section SequenceFacts.
Context {A : Type} `{EqDecision A}.
Implicit Types (p sub sep s t : list A).
Local Open Scope nat_scope.

Lemma startswith_spec p s : startswith p s = true ↔ ∃ t, s = p ++ t.
Proof.
  revert s. induction p as [|x p IH]; intros s; simpl.
  - split; [eauto | done].
  - destruct s as [|y s].
    + split; [done | intros [t Ht]; discriminate].
    + case_decide as Hxy.
      * subst y. rewrite IH. split; intros [t Ht]; exists t; simpl in *; congruence.
      * split; [done | intros [t Ht]; simpl in Ht; congruence].
Qed.

Lemma startswith_length p s : startswith p s = true → length p ≤ length s.
Proof.
  intros [t ->]%startswith_spec. rewrite length_app. lia.
Qed.

Lemma startswith_app p s t : startswith p s = true → startswith p (s ++ t) = true.
Proof.
  intros [u ->]%startswith_spec. apply startswith_spec.
  exists (u ++ t). by rewrite <- (assoc_L (++)).
Qed.

Lemma startswith_app_long p s t :
  length p ≤ length s → startswith p (s ++ t) = startswith p s.
Proof.
  revert s. induction p as [|x p IH]; intros s Hlen; [done|].
  destruct s as [|y s]; simpl in *; [lia|].
  case_decide; [apply IH; lia | done].
Qed.

Lemma find_nil sub : find sub [] = if startswith sub [] then Some 0%nat else None.
Proof. done. Qed.

Lemma find_cons sub x s :
  find sub (x :: s) = if startswith sub (x :: s) then Some 0%nat else S <$> find sub s.
Proof. done. Qed.

Lemma find_bound sub s i : find sub s = Some i → i + length sub ≤ length s.
Proof.
  revert i. induction s as [|x s IH]; intros i.
  - rewrite find_nil. destruct (startswith sub []) eqn:E; [|done].
    intros [= <-]. apply startswith_length in E. simpl in *. lia.
  - rewrite find_cons. destruct (startswith sub (x :: s)) eqn:E.
    + intros [= <-]. apply startswith_length in E. simpl in *. lia.
    + destruct (find sub s) as [j|]; [|done]. intros [= <-].
      specialize (IH j eq_refl). simpl. lia.
Qed.

Lemma find_Some sub s i :
  find sub s = Some i → s = take i s ++ sub ++ drop (i + length sub) s.
Proof.
  revert i. induction s as [|x s IH]; intros i.
  - rewrite find_nil. destruct (startswith sub []) eqn:E; [|done].
    intros [= <-]. apply startswith_spec in E as [t Ht].
    symmetry in Ht. apply app_eq_nil in Ht as [-> ->]. done.
  - rewrite find_cons. destruct (startswith sub (x :: s)) eqn:E.
    + intros [= <-]. apply startswith_spec in E as [t Ht].
      rewrite Ht at 1. simpl. f_equal.
      rewrite Ht, drop_app_length. done.
    + destruct (find sub s) as [j|]; [|done]. intros [= <-].
      simpl. f_equal. by apply IH.
Qed.

(** [find] returns the first occurrence. *)
Lemma find_least sub s i j :
  find sub s = Some i → j < i → startswith sub (drop j s) = false.
Proof.
  revert i j. induction s as [|x s IH]; intros i j.
  - rewrite find_nil. destruct (startswith sub []); [|done].
    intros [= <-]. lia.
  - rewrite find_cons. destruct (startswith sub (x :: s)) eqn:E.
    + intros [= <-]. lia.
    + destruct (find sub s) as [k|] eqn:Ek; [|done]. intros [= <-] Hj.
      destruct j as [|j]; [done|]. simpl. apply (IH k); [done | lia].
Qed.

Lemma find_app sub s t i : find sub s = Some i → find sub (s ++ t) = Some i.
Proof.
  revert i. induction s as [|x s IH]; intros i.
  - rewrite find_nil. destruct (startswith sub []) eqn:E; [|done].
    intros [= <-]. apply startswith_spec in E as [u Hu].
    symmetry in Hu. apply app_eq_nil in Hu as [-> ->].
    simpl. by destruct t.
  - rewrite find_cons. simpl app. rewrite find_cons.
    destruct (startswith sub (x :: s)) eqn:E.
    + intros [= <-]. change (x :: s ++ t) with ((x :: s) ++ t).
      by rewrite startswith_app.
    + destruct (find sub s) as [j|] eqn:Ej; [|done]. intros [= <-].
      change (x :: s ++ t) with ((x :: s) ++ t).
      rewrite startswith_app_long, E.
      * by rewrite (IH j).
      * apply find_bound in Ej. simpl. lia.
Qed.

Lemma contains_app_l sub s t : contains sub s = true → contains sub (s ++ t) = true.
Proof.
  unfold contains. destruct (find sub s) as [i|] eqn:E; [|done].
  by rewrite (find_app _ _ _ i).
Qed.

(** [contains] decides the substring relation. *)
Lemma contains_spec sub s : contains sub s = true ↔ ∃ a b, s = a ++ sub ++ b.
Proof.
  unfold contains. split.
  - destruct (find sub s) as [i|] eqn:E; [|done]. intros _.
    apply find_Some in E. eauto.
  - intros (a & b & ->). induction a as [|x a IH].
    + simpl. destruct (sub ++ b) as [|y u] eqn:Eu.
      * apply app_eq_nil in Eu as [-> ->]. done.
      * rewrite find_cons, <- Eu.
        assert (startswith sub (sub ++ b) = true) as ->; [|done].
        apply startswith_spec; eauto.
    + simpl app. rewrite find_cons.
      destruct (startswith sub (x :: a ++ sub ++ b)); [done|].
      by destruct (find sub (a ++ sub ++ b)).
Qed.

Lemma find_take_none sub s i :
  find sub s = Some i → 0 < length sub → find sub (take i s) = None.
Proof.
  intros Hi Hsub. destruct (find sub (take i s)) as [j|] eqn:Ej; [|done].
  pose proof (find_bound _ _ _ Ej) as Hb. rewrite length_take in Hb.
  pose proof (find_app _ _ (drop i s) _ Ej) as Hj.
  rewrite take_drop, Hi in Hj. injection Hj as ->. lia.
Qed.

Lemma split_hd sep s :
  hd [] (split sep s) = match find sep s with Some i => take i s | None => s end.
Proof.
  unfold split. destruct s as [|x s]; simpl length; cbn [split_upto].
  - by destruct (find sep []) as [[|i]|].
  - by destruct (find sep (x :: s)).
Qed.

Lemma split_not_nil sep s : split sep s ≠ [].
Proof.
  unfold split. destruct (length s); cbn [split_upto]; [done|].
  by destruct (find sep s).
Qed.

Lemma split_once_contains sep s :
  contains sep s = true →
  ∃ i, find sep s = Some i ∧ split_once sep s = [take i s; drop (i + length sep) s].
Proof.
  unfold contains, split_once. destruct (find sep s) as [i|]; [eauto | done].
Qed.

Lemma lstrip_by_head (f : A → bool) s :
  match lstrip_by f s with [] => True | c :: _ => f c = false end.
Proof.
  induction s as [|x s IH]; simpl; [done|].
  destruct (f x) eqn:E; done.
Qed.

Lemma lstrip_by_app (f : A → bool) s t :
  lstrip_by f s ≠ [] → lstrip_by f (s ++ t) = lstrip_by f s ++ t.
Proof.
  induction s as [|x s IH]; simpl; [done|].
  destruct (f x); [apply IH | done].
Qed.
End SequenceFacts.

(* ===================================================================== *)
(** ** The request parser *)
(* ===================================================================== *)

Section ParserFacts.
Context `{PyLib}.
Local Open Scope nat_scope.

(** [lines[0]] always exists. *)
Lemma header_lines_not_nil (raw_request : bytes) : header_lines raw_request ≠ [].
Proof. apply split_not_nil. Qed.

Lemma header_entry_none (line : text) :
  header_entry line = None ↔ contains (T ":") line = false.
Proof.
  unfold header_entry, contains. by destruct (find (T ":") line).
Qed.

Lemma header_entry_some (line k v : text) :
  header_entry line = Some (k, v) →
  ∃ a b, line = a ++ T ":" ++ b ∧ contains (T ":") a = false
         ∧ k = str_lower (strip a) ∧ v = strip b.
Proof.
  unfold header_entry. destruct (find (T ":") line) as [i|] eqn:Ei; [|done].
  intros [= <- <-]. exists (take i line), (drop (S i) line).
  repeat split; [| | done..].
  - apply find_Some in Ei. by rewrite Nat.add_1_r in Ei.
  - unfold contains. rewrite (find_take_none _ _ _ Ei); [done | simpl; lia].
Qed.

Lemma add_header_line_entry (hs : gmap text text) (line : text) :
  add_header_line hs line =
    match header_entry line with
    | Some (k, v) => <[k := v]> hs
    | None => hs
    end.
Proof.
  unfold add_header_line, header_entry, contains, split_once.
  destruct (find (T ":") line) as [i|]; [|done].
  by rewrite Nat.add_1_r.
Qed.

Lemma foldl_add_header_line (lines : list text) (hs : gmap text text) (key : text) :
  foldl add_header_line hs lines !! key =
    match last_value key lines with
    | Some v => Some v
    | None => hs !! key
    end.
Proof.
  induction lines as [|line lines IH] using rev_ind; [done|].
  rewrite foldl_app. cbn [foldl]. rewrite add_header_line_entry.
  unfold last_value in *. rewrite omap_app. cbn [omap list_omap].
  destruct (header_entry line) as [[k v]|].
  - case_decide as Hk.
    + subst k. cbn. by rewrite last_snoc, lookup_insert_eq.
    + cbn. by rewrite app_nil_r, lookup_insert_ne.
  - cbn. by rewrite app_nil_r.
Qed.

(** C7. In a request the parser accepts, the header mapping gives for
    every key the value of the last header line that has this key, where
    a line without [':'] has no entry, and a line with one is cut at its
    first [':'], both sides are trimmed and the key is lowercased. *)
Theorem parse_request_headers (raw_request : bytes) (rq : request) :
  parse_request raw_request = Some rq →
  (∀ key, rq_headers rq !! key = last_value key (tail (header_lines raw_request)))
  ∧ (∀ line, header_entry line = None ↔ contains (T ":") line = false)
  ∧ (∀ line k v, header_entry line = Some (k, v) →
       ∃ a b, line = a ++ T ":" ++ b ∧ contains (T ":") a = false
              ∧ k = str_lower (strip a) ∧ v = strip b).
Proof.
  intros Hp. split; [|split; [apply header_entry_none | apply header_entry_some]].
  intros key. unfold parse_request in Hp.
  destruct (header_lines raw_request) as [|request_line rest]; [done|].
  destruct (split (T " ") request_line) as [|m [|p [|v [|? ?]]]]; try done.
  injection Hp as <-. cbn [rq_headers tail].
  rewrite foldl_add_header_line. rewrite lookup_empty.
  by destruct (last_value key rest).
Qed.

Section Respond.
Context {W : Type} `{OS W}.

(** C4. If the request line does not split on spaces into exactly
    three tokens, [parse_request] returns the sentinel, and the server
    answers 400 with the body [Bad Request]. *)
Theorem malformed_request_line (raw_request : bytes) (w : W) :
  length (split (T " ") (request_line raw_request)) ≠ 3 →
  parse_request raw_request = None
  ∧ respond raw_request w = (w, bad_request)
  ∧ status_code bad_request = 400
  ∧ body bad_request = B "Bad Request"
  ∧ (∀ recv fuel,
       read_request recv fuel 0 [] = Some (Received raw_request) →
       handle_connection recv fuel w = Some (w, Some (serialize bad_request))).
Proof.
  intros Hn.
  assert (parse_request raw_request = None) as Hp.
  { unfold parse_request, request_line in *.
    destruct (header_lines raw_request) as [|l rest]; [done|].
    cbn [hd] in Hn.
    by destruct (split (T " ") l) as [|m [|p [|v [|? ?]]]]. }
  split; [done|]. unfold respond at 1. rewrite Hp.
  repeat split. intros recv fuel Hr.
  unfold handle_connection. rewrite Hr. unfold respond. by rewrite Hp.
Qed.
End Respond.
End ParserFacts.

Lemma parse_request_headers_witness :
  parse_request duplicate_headers_request = Some duplicate_headers_parsed
  ∧ rq_headers duplicate_headers_parsed !! T "host" = Some (T "b:c").
Proof.
  assert (parse_request duplicate_headers_request = Some duplicate_headers_parsed) as Hp
    by reflexivity.
  split; [exact Hp|].
  destruct (parse_request_headers duplicate_headers_request duplicate_headers_parsed Hp)
    as [Hlast _].
  rewrite Hlast. reflexivity.
Defined.

Lemma malformed_request_line_witness :
  length (split (T " ") (request_line two_token_request)) ≠ 3%nat
  ∧ parse_request two_token_request = None
  ∧ respond two_token_request site_world = (site_world, bad_request).
Proof.
  assert (length (split (T " ") (request_line two_token_request)) ≠ 3%nat) as Hn
    by (vm_compute; lia).
  split; [exact Hn|].
  destruct (malformed_request_line two_token_request site_world Hn) as (Hp & Hr & _).
  split; [exact Hp | exact Hr].
Defined.

(* ===================================================================== *)
(** ** The request reader *)
(* ===================================================================== *)

Section ReaderFacts.
Context `{PyLib}.
Local Open Scope nat_scope.

Lemma header_part_app (a b : bytes) :
  contains CRLFCRLF_b a = true → header_part (a ++ b) = header_part a.
Proof.
  intros Ha. unfold header_part. rewrite (contains_app_l _ _ b Ha), Ha.
  destruct (split_once_contains _ _ Ha) as (i & Hi & ->).
  destruct (split_once_contains _ _ (contains_app_l _ _ b Ha)) as (j & Hj & ->).
  rewrite (find_app _ _ b _ Hi) in Hj. injection Hj as <-.
  cbn [hd]. apply find_bound in Hi. rewrite take_app_le; [done | lia].
Qed.

Lemma body_part_app (a b : bytes) :
  contains CRLFCRLF_b a = true → body_part (a ++ b) = body_part a ++ b.
Proof.
  intros Ha. unfold body_part. rewrite (contains_app_l _ _ b Ha), Ha.
  destruct (split_once_contains _ _ Ha) as (i & Hi & ->).
  destruct (split_once_contains _ _ (contains_app_l _ _ b Ha)) as (j & Hj & ->).
  rewrite (find_app _ _ b _ Hi) in Hj. injection Hj as <-.
  cbn [nth]. apply find_bound in Hi. rewrite drop_app_le; [done | lia].
Qed.

Lemma body_part_length (raw : bytes) (i : nat) :
  find CRLFCRLF_b raw = Some i → len (body_part raw) = len raw - (i + 4).
Proof.
  intros Hi. unfold body_part, contains, split_once. rewrite Hi.
  cbn [nth]. unfold len. by rewrite length_drop.
Qed.

(** Bytes received after the blank line only extend the body. *)
Lemma parse_request_app (a b : bytes) :
  contains CRLFCRLF_b a = true →
  parse_request (a ++ b) =
    (λ rq, Request (rq_method rq) (rq_path rq) (rq_version rq) (rq_headers rq)
             (rq_body rq ++ b)) <$> parse_request a.
Proof.
  intros Ha. unfold parse_request, header_lines.
  rewrite (header_part_app _ _ Ha), (body_part_app _ _ Ha).
  destruct (split CRLF _) as [|request_line rest]; [done|].
  by destruct (split (T " ") request_line) as [|m [|p [|v [|? ?]]]].
Qed.

Lemma sent_app (recv : nat → bytes) (c n : nat) :
  c ≤ n → ∃ rest, sent recv n = sent recv c ++ rest.
Proof.
  induction 1 as [|m Hm IH].
  - exists []. by rewrite app_nil_r.
  - destruct IH as [rest IH]. exists (rest ++ recv m).
    cbn [sent]. by rewrite IH, <- (assoc_L (++)).
Qed.

Section Stream.
Variable recv : nat → bytes.
Variable eof : nat.
Hypothesis closed_at : recv eof = [].
Hypothesis open_before : ∀ i, i < eof → recv i ≠ [].

Lemma sent_length_le (c : nat) : c ≤ eof → len (sent recv c) ≤ len (sent recv eof).
Proof.
  intros [rest ->]%(sent_app recv). unfold len. rewrite length_app. lia.
Qed.

(** The inner loop, entered with too few body bytes, reads until the
    peer closes. *)
Lemma read_body_until_close (body_start : nat) (content_length : Z) :
  (Z.of_nat (len (sent recv eof)) - Z.of_nat body_start < content_length)%Z →
  ∀ fuel c,
    c ≤ eof → eof - c < fuel →
    read_body recv fuel c (sent recv c)
      (Z.of_nat (len (sent recv c)) - Z.of_nat body_start) content_length
    = Some (sent recv eof).
Proof.
  intros Hshort. induction fuel as [|fuel IH]; intros c Hc Hfuel; [lia|].
  cbn [read_body]. pose proof (sent_length_le c Hc) as Hlen.
  destruct (Z.ltb_spec (Z.of_nat (len (sent recv c)) - Z.of_nat body_start)
              content_length) as [_|Hge]; [|lia].
  destruct (decide (c = eof)) as [->|Hne].
  - by rewrite closed_at.
  - assert (c < eof) as Hlt by lia. pose proof (open_before c Hlt) as Hchunk.
    destruct (recv c) as [|x chunk] eqn:Erecv; [done|].
    specialize (IH (S c) ltac:(lia) ltac:(lia)). cbn [sent] in IH.
    rewrite Erecv in IH. rewrite <- IH. f_equal.
    unfold len. rewrite length_app. lia.
Qed.

(** C8. A peer sends a POST or PUT whose [Content-Length] exceeds the
    body bytes it delivers and then closes: the read loop ends, with
    all the bytes that were sent, for any fuel above the number [eof] of
    the read that returned nothing. *)
Theorem read_stops_when_peer_closes (rq : request) (v : text)
    (content_length : Z) (fuel : nat) :
  parse_request (sent recv eof) = Some rq →
  rq_method rq ∈ [T "POST"; T "PUT"] →
  rq_headers rq !! T "content-length" = Some v →
  int_of_str v = Some content_length →
  (Z.of_nat (len (rq_body rq)) < content_length)%Z →
  eof < fuel →
  read_request recv fuel 0 [] = Some (Received (sent recv eof)).
Proof.
  intros Hparse Hmethod Hcl Hint Hshort Hfuel.
  assert (∀ fuel c, c ≤ eof → eof - c < fuel →
            contains CRLFCRLF_b (sent recv c) = false →
            read_request recv fuel c (sent recv c) = Some (Received (sent recv eof)))
    as Hloop.
  { clear fuel Hfuel.
    induction fuel as [|fuel IH]; intros c Hc Hfuel Hnone; [lia|].
    destruct (decide (c = eof)) as [->|Hne].
    { cbn [read_request]. by rewrite closed_at, app_nil_r, Hnone. }
    assert (c < eof) as Hlt by lia.
    cbn [read_request]. change (sent recv c ++ recv c) with (sent recv (S c)).
    destruct (contains CRLFCRLF_b (sent recv (S c))) eqn:Hnow.
    - destruct (sent_app recv (S c) eof ltac:(lia)) as [rest Hrest].
      pose proof (parse_request_app _ rest Hnow) as Happ.
      rewrite <- Hrest, Hparse in Happ.
      destruct (parse_request (sent recv (S c))) as [rq'|]; [|done].
      injection Happ as ->. cbn [rq_method rq_headers rq_body] in *.
      rewrite bool_decide_eq_true_2 by done. rewrite Hcl, Hint.
      destruct (split_once_contains _ _ Hnow) as (i & Hi & _). rewrite Hi.
      pose proof (find_app _ _ rest _ Hi) as HiN. rewrite <- Hrest in HiN.
      pose proof (body_part_length _ _ HiN) as Hbody.
      assert (rq_body rq' ++ rest = body_part (sent recv eof)) as Hb.
      { unfold parse_request in Hparse.
        destruct (header_lines (sent recv eof)) as [|l ls]; [done|].
        destruct (split (T " ") l) as [|m [|p [|q [|? ?]]]]; try done.
        by injection Hparse. }
      rewrite Hb, Hbody in Hshort. apply find_bound in HiN.
      change (length CRLFCRLF_b) with 4 in HiN. unfold len in *.
      rewrite read_body_until_close; [done | unfold len; lia | lia | lia].
    - pose proof (open_before c Hlt) as Hchunk.
      destruct (recv c) as [|x chunk] eqn:Erecv; [done|].
      apply IH; [lia | lia | done]. }
  apply (Hloop fuel 0); [lia | lia | done].
Qed.
End Stream.

(** Whatever is received, the read loop ends once the peer has closed,
    that is, once every further read returns nothing. *)
Lemma read_body_terminates (recv : nat → bytes) (eof : nat) (content_length : Z) :
  (∀ n, eof ≤ n → recv n = []) →
  ∀ fuel c raw current, eof - c < fuel →
    is_Some (read_body recv fuel c raw current content_length).
Proof.
  intros Hclosed. induction fuel as [|fuel IH]; intros c raw current Hfuel; [lia|].
  cbn [read_body]. destruct (current <? content_length)%Z; [|done].
  destruct (decide (eof ≤ c)) as [Hle|Hlt]; [by rewrite Hclosed|].
  destruct (recv c); [done | apply IH; lia].
Qed.

Lemma read_request_terminates (recv : nat → bytes) (eof : nat) :
  (∀ n, eof ≤ n → recv n = []) →
  ∀ fuel c raw, eof - c + 1 < fuel → is_Some (read_request recv fuel c raw).
Proof.
  intros Hclosed. induction fuel as [|fuel IH]; intros c raw Hfuel; [lia|].
  cbn [read_request]. repeat case_match; try done.
  - rewrite fmap_is_Some. apply (read_body_terminates _ eof); [done | lia].
  - subst. destruct (decide (eof ≤ c)) as [Hle|Hlt].
    + rewrite Hclosed in * by done. done.
    + apply IH. lia.
Qed.
End ReaderFacts.

Lemma read_stops_when_peer_closes_witness :
  read_request early_close_stream 3 0 [] = Some (Received (sent early_close_stream 2))
  ∧ sent early_close_stream 2
    = B "POST /post HTTP/1.1" ++ CRLF_b ++ B "Content-Length: 10" ++ CRLFCRLF_b
      ++ B "hello".
Proof.
  split; [|reflexivity].
  apply (read_stops_when_peer_closes early_close_stream 2 eq_refl) with
    (rq := early_close_parsed) (v := T "10") (content_length := 10%Z).
  - intros [|[|i]] Hi; [discriminate | discriminate | lia].
  - reflexivity.
  - vm_compute. apply list_elem_of_here.
  - reflexivity.
  - reflexivity.
  - vm_compute. reflexivity.
  - lia.
Defined.

(* ===================================================================== *)
(** ** The path resolver *)
(* ===================================================================== *)

Section PathFacts.
Context `{PyLib}.

Lemma lstrip_slash_no_slash (s : text) : startswith (T "/") (lstrip_slash s) = false.
Proof.
  unfold lstrip_slash. pose proof (lstrip_by_head (λ c, bool_decide (c = 47)) s) as Hh.
  destruct (lstrip_by _ s) as [|c r]; [reflexivity|].
  apply bool_decide_eq_false in Hh.
  change (T "/") with [47]. simpl. destruct (decide (47 = c)); [|done].
  by subst c.
Qed.

Lemma resolve_path_eq (http_path : text) :
  resolve_path http_path =
    let p := strip_query http_path in
    let p := if decide (p = T "/") then T "/index.html" else p in
    if contains (T "..") (lstrip_slash p) then None
    else Some (os_path_join SERVER_ROOT (lstrip_slash p)).
Proof.
  unfold resolve_path, strip_query. rewrite split_hd. unfold contains.
  by destruct (find (T "?") http_path).
Qed.

Lemma os_path_join_relative (a b : text) :
  startswith (T "/") b = false → a `prefix_of` os_path_join a b.
Proof.
  intros Hb. unfold os_path_join. rewrite Hb.
  destruct (_ || _); by eexists.
Qed.

Lemma dotdot_resolve_path (http_path : text) :
  contains (T "..") (lstrip_slash (strip_query http_path)) = true →
  resolve_path http_path = None.
Proof.
  intros Hdd. rewrite resolve_path_eq. cbv zeta.
  case_decide as Hroot.
  - rewrite Hroot in Hdd. discriminate Hdd.
  - by rewrite Hdd.
Qed.

Lemma dotdot_whole_path (http_path : text) :
  contains (T "..") (lstrip_slash (strip_query http_path)) = true →
  contains (T "..") (lstrip_slash http_path) = true.
Proof.
  unfold strip_query. destruct (find (T "?") http_path) as [i|]; [|done].
  intros Hdd. rewrite <- (take_drop i http_path). unfold lstrip_slash in *.
  rewrite lstrip_by_app.
  - by apply contains_app_l.
  - intros Hnil. rewrite Hnil in Hdd. discriminate Hdd.
Qed.

(** C10. Whenever [resolve_path] returns a path, that path is the server
    root joined with a remainder that has no [".."] in it and no leading
    ["/"], and it has the server root as a textual prefix. *)
Theorem resolve_path_under_root (http_path full_path : text) :
  resolve_path http_path = Some full_path →
  ∃ relative_path,
    full_path = os_path_join SERVER_ROOT relative_path
    ∧ contains (T "..") relative_path = false
    ∧ startswith (T "/") relative_path = false
    ∧ SERVER_ROOT `prefix_of` full_path.
Proof.
  rewrite resolve_path_eq. cbv zeta.
  set (p := if decide (_ = T "/") then _ else _).
  destruct (contains (T "..") (lstrip_slash p)) eqn:Hdd; [done|].
  intros [= <-]. exists (lstrip_slash p).
  repeat split; [done | apply lstrip_slash_no_slash |].
  apply os_path_join_relative, lstrip_slash_no_slash.
Qed.
End PathFacts.

Lemma resolve_path_under_root_witness :
  resolve_path (T "//docs/a.html?v=..")
    = Some (T "/home/user/simple_http/www/docs/a.html")
  ∧ ∃ relative_path,
      T "/home/user/simple_http/www/docs/a.html"
        = os_path_join SERVER_ROOT relative_path
      ∧ contains (T "..") relative_path = false
      ∧ startswith (T "/") relative_path = false
      ∧ SERVER_ROOT `prefix_of` T "/home/user/simple_http/www/docs/a.html".
Proof.
  split; [reflexivity|].
  apply (resolve_path_under_root (T "//docs/a.html?v=..")).
  reflexivity.
Defined.

(* ===================================================================== *)
(** ** The handlers *)
(* ===================================================================== *)

Section HandlerFacts.
Context `{PyLib} {W : Type} `{OS W}.
Implicit Types (w : W) (hs : gmap text text).

(** C5. A path that still contains [".."] once its query and its leading
    slashes are removed is rejected: 404 from GET and HEAD, 400 from PUT,
    and the filesystem is not touched. *)
Theorem dotdot_rejected (path : text) hs (body : bytes) w :
  contains (T "..") (lstrip_slash (strip_query path)) = true →
  (fst (handle_get path hs w) = w
   ∧ status_code (snd (handle_get path hs w)) = 404%nat)
  ∧ (fst (handle_head path hs w) = w
     ∧ status_code (snd (handle_head path hs w)) = 404%nat)
  ∧ (fst (handle_put path hs body w) = w
     ∧ status_code (snd (handle_put path hs body w)) = 400%nat).
Proof.
  intros Hdd. unfold handle_get, handle_head, handle_put.
  rewrite (dotdot_resolve_path _ Hdd), (dotdot_whole_path _ Hdd). done.
Qed.

(** Runs a handler through every outcome of its filesystem calls. *)
Ltac run_handler :=
  unfold handle_get, handle_head, handle_post, handle_put,
    try_except, with_open, mbind, mret, io_mbind, io_mret, io_bind, io_ret;
  cbv beta;
  repeat case_match; simplify_eq; cbn [fst snd].

Lemma handle_get_cases (path : text) hs w :
  let r := snd (handle_get path hs w) in
  r = not_found_get ∨ r = internal_error
  ∨ ∃ mime_type body, r = ok_file mime_type (len body) body.
Proof. cbv zeta. run_handler; eauto. Qed.

Lemma handle_head_cases (path : text) hs w :
  let r := snd (handle_head path hs w) in
  r = not_found_head ∨ r = head_error
  ∨ ∃ mime_type file_size, r = ok_file mime_type file_size [].
Proof. cbv zeta. run_handler; eauto. Qed.

Lemma handle_post_cases (path : text) hs (body : bytes) w :
  let r := snd (handle_post path hs body w) in
  r = handle_unsupported (T "POST") ∨ r = internal_error ∨ r = post_stored.
Proof. cbv zeta. run_handler; eauto. Qed.

Lemma handle_put_cases (path : text) hs (body : bytes) w :
  let r := snd (handle_put path hs body w) in
  r = put_forbidden ∨ r = internal_error
  ∨ ∃ created, r = put_stored created path (os_path_basename (put_target path)).
Proof.
  cbv zeta. run_handler; eauto.
  - right; right. by exists false.
  - right; right. by exists true.
Qed.

Lemma handle_request_cases (method path version : text) hs (body : bytes) w :
  let r := snd (handle_request method path version hs body w) in
  (method = T "GET" ∧ r = snd (handle_get path hs w))
  ∨ (method = T "POST" ∧ r = snd (handle_post path hs body w))
  ∨ (method = T "PUT" ∧ r = snd (handle_put path hs body w))
  ∨ (method = T "HEAD" ∧ r = snd (handle_head path hs w))
  ∨ r = handle_unsupported method.
Proof.
  cbv zeta. unfold handle_request. repeat case_decide; eauto 10.
Qed.

(** Hides the body of a PUT response before computing on its headers. *)
Ltac hide_put_body :=
  unfold put_stored; cbv zeta;
  match goal with
  | |- context [utf8_encode ?f] => generalize (utf8_encode f); intro
  end.

Ltac header_facts :=
  vm_compute; repeat split; eauto; try done;
  try (by intros [? [=]]); try (by intros [=]);
  try (match goal with Hx : ∃ _, None = Some _ |- _ => by destruct Hx as [? [=]] end).

Lemma handle_request_headers (method path version : text) hs (request_body : bytes) w :
  let r := snd (handle_request method path version hs request_body w) in
  has_standard_headers r
  ∧ (is_Some (header (T "Location") (headers r)) →
     method = T "PUT" ∧ status_code r = 201%nat
     ∧ header (T "Location") (headers r) = Some path)
  ∧ (is_Some (header (T "Allow") (headers r)) ↔ status_code r = 405%nat).
Proof.
  cbv zeta. unfold has_standard_headers.
  destruct (handle_request_cases method path version hs request_body w)
    as [[-> ->]|[[-> ->]|[[-> ->]|[[-> ->]| ->]]]].
  - destruct (handle_get_cases path hs w) as [->|[->|(m & b & ->)]];
      header_facts.
  - destruct (handle_post_cases path hs request_body w) as [->|[->| ->]];
      header_facts.
  - destruct (handle_put_cases path hs request_body w) as [->|[->|([] & ->)]];
      try hide_put_body; header_facts.
  - destruct (handle_head_cases path hs w) as [->|[->|(m & n & ->)]];
      header_facts.
  - header_facts.
Qed.

(** C2, the parse-failure path: the 400 response of [start_server] is
    built without [Content-Type]. *)
Theorem bad_request_has_no_content_type w :
  respond two_token_request w = (w, bad_request)
  ∧ header (T "Content-Type") (headers bad_request) = None
  ∧ serialize bad_request
    = B "HTTP/1.1 400 Bad Request" ++ CRLF_b ++ B "Content-Length: 11" ++ CRLF_b
      ++ B "Connection: close" ++ CRLFCRLF_b ++ B "Bad Request".
Proof. repeat split. Qed.

(** C3. When the target of a HEAD is missing or not a regular file, the
    response is 404 with an empty body and [Content-Length: 14], whereas
    GET answers the same path with the 13 bytes [404 Not Found] and
    [Content-Length: 13]. *)
Theorem head_not_found_content_length (path : text) hs w :
  (∀ filepath, resolve_path path = Some filepath → os_path_isfile w filepath = false) →
  snd (handle_head path hs w) = not_found_head
  ∧ snd (handle_get path hs w) = not_found_get
  ∧ status_code not_found_head = 404%nat
  ∧ body not_found_head = []
  ∧ header (T "Content-Length") (headers not_found_head) = Some (T "14")
  ∧ body not_found_get = B "404 Not Found"
  ∧ len (B "404 Not Found") = 13%nat
  ∧ header (T "Content-Length") (headers not_found_get) = Some (T "13").
Proof.
  intros Hmissing. unfold handle_head, handle_get.
  destruct (resolve_path path) as [filepath|]; [|by repeat split].
  rewrite (Hmissing filepath eq_refl). by repeat split.
Qed.

(** C1 (amended). For GET, POST, PUT, an unsupported method and the 400
    path, [Content-Length] is the byte length of the body given to
    [build_response].  A HEAD response is built with an empty body, and
    when it is a 200 its [Content-Length] is the file size the filesystem
    reports. *)
Theorem content_length_of_responses (method path version : text) hs
    (request_body : bytes) w :
  (method ≠ T "HEAD" →
   content_length_exact (snd (handle_request method path version hs request_body w)))
  ∧ content_length_exact bad_request
  ∧ body (snd (handle_head path hs w)) = []
  ∧ (∀ filepath w' file_size,
       resolve_path path = Some filepath →
       os_path_isfile w filepath = true →
       os_path_getsize filepath w = (w', Some file_size) →
       status_code (snd (handle_head path hs w)) = 200%nat
       ∧ header (T "Content-Length") (headers (snd (handle_head path hs w)))
         = Some (str file_size)).
Proof.
  split; [|split; [|split]].
  - intros Hmethod. unfold content_length_exact.
    destruct (handle_request_cases method path version hs request_body w)
      as [[-> ->]|[[-> ->]|[[-> ->]|[[-> _]| ->]]]]; [| | |done|].
    + destruct (handle_get_cases path hs w) as [->|[->|(m & b & ->)]];
        vm_compute; reflexivity.
    + destruct (handle_post_cases path hs request_body w) as [->|[->| ->]];
        vm_compute; reflexivity.
    + destruct (handle_put_cases path hs request_body w) as [->|[->|([] & ->)]];
        try hide_put_body; vm_compute; reflexivity.
    + vm_compute; reflexivity.
  - reflexivity.
  - by destruct (handle_head_cases path hs w) as [->|[->|(m & n & ->)]].
  - intros filepath w' file_size Hpath Hfile Hsize.
    unfold handle_head, try_except, mbind, mret, io_mbind, io_mret, io_bind, io_ret.
    rewrite Hpath, Hfile. cbn [negb]. rewrite Hsize. cbn [snd status_code headers].
    split; [done|]. vm_compute; reflexivity.
Qed.

(** C6 (amended). For a PUT path without [".."], when creating the
    directories, opening the target for writing, writing and closing
    raise no exception, the handler has written exactly the request body
    to the target; it answers 201 with [Location] set to the request path
    if the target was not a regular file before, and 200 without
    [Location] if it was. *)
Theorem put_stores_body (path : text) hs (request_body : bytes) w w1 w2 w3 w4 :
  contains (T "..") (lstrip_slash path) = false →
  os_makedirs (os_path_dirname (put_target path)) w = (w1, Some ()) →
  file_open (put_target path) WB w1 = (w2, Some ()) →
  file_write (put_target path) request_body w2 = (w3, Some ()) →
  file_close (put_target path) w3 = (w4, Some ()) →
  fst (handle_put path hs request_body w) = w4
  ∧ (os_path_isfile w (put_target path) = false →
     status_code (snd (handle_put path hs request_body w)) = 201%nat
     ∧ header (T "Location") (headers (snd (handle_put path hs request_body w)))
       = Some path)
  ∧ (os_path_isfile w (put_target path) = true →
     status_code (snd (handle_put path hs request_body w)) = 200%nat
     ∧ header (T "Location") (headers (snd (handle_put path hs request_body w)))
       = None).
Proof.
  intros Hsafe Hdirs Hopen Hwrite Hclose.
  unfold handle_put, try_except, with_open, mbind, mret, io_mbind, io_mret,
    io_bind, io_ret.
  fold (put_target path). rewrite Hsafe. cbv beta zeta.
  rewrite Hdirs, Hopen, Hwrite, Hclose.
  destruct (os_path_isfile w (put_target path)); cbn [fst snd status_code headers].
  - split; [done|]. split; [done|]. intros _. split; [done|].
    vm_compute; reflexivity.
  - split; [done|]. split; [|done]. intros _. split; [done|].
    generalize (utf8_encode (T "PUT stored as " ++ os_path_basename (put_target path))).
    intros b. clear. generalize (str (len b)). intros l.
    unfold header. rewrite decide_False by (by vm_compute).
    rewrite decide_False by (by vm_compute).
    by rewrite decide_True by reflexivity.
Qed.

(** C9 (amended). A POST to [/post], when opening the log for appending,
    the three writes and the close raise no exception, has written to the
    log, in this order, a newline with the bracketed timestamp line, the
    request body decoded with invalid bytes ignored, and a newline, and
    is answered 200 with the body [POST received and stored.]; a POST to
    any other path gets the 405 response and writes nothing. *)
Theorem post_appends_entry (path : text) hs (request_body : bytes) w :
  (∀ w1 w2 w3 w4 w5 piece1 piece2 piece3,
     log_entry (datetime_now w) request_body = [piece1; piece2; piece3] →
     file_open POST_DATA_FILE AT w = (w1, Some ()) →
     file_write_str POST_DATA_FILE piece1 w1 = (w2, Some ()) →
     file_write_str POST_DATA_FILE piece2 w2 = (w3, Some ()) →
     file_write_str POST_DATA_FILE piece3 w3 = (w4, Some ()) →
     file_close POST_DATA_FILE w4 = (w5, Some ()) →
     handle_post (T "/post") hs request_body w = (w5, post_stored))
  ∧ status_code post_stored = 200%nat
  ∧ body post_stored = B "POST received and stored."
  ∧ (path ≠ T "/post" →
     handle_post path hs request_body w = (w, handle_unsupported (T "POST"))
     ∧ status_code (handle_unsupported (T "POST")) = 405%nat).
Proof.
  split; [|split; [done|split; [done|]]].
  - intros w1 w2 w3 w4 w5 p1 p2 p3 Hentry Hopen Hw1 Hw2 Hw3 Hclose.
    unfold log_entry in Hentry.
    assert (NL ++ T "[" ++ datetime_now w ++ T "]" ++ NL = p1) as Hp1 by congruence.
    assert (utf8_decode_ignore request_body = p2) as Hp2 by congruence.
    assert (NL = p3) as Hp3 by congruence.
    unfold handle_post, try_except, with_open, mbind, mret, io_mbind, io_mret,
      io_bind, io_ret.
    rewrite bool_decide_eq_true_2 by done. cbn [negb]. cbv zeta.
    rewrite Hp1, Hp2, Hp3.
    by rewrite Hopen, Hw1, Hw2, Hw3, Hclose.
  - intros Hpath. unfold handle_post.
    by rewrite bool_decide_eq_false_2 by done.
Qed.
End HandlerFacts.

(** A HEAD of an existing five-byte file: [Content-Length: 5], empty body. *)
Lemma head_content_length_not_body_length :
  status_code (snd (handle_request (T "HEAD") (T "/index.html") (T "HTTP/1.1") ∅ []
                      site_world)) = 200%nat
  ∧ body (snd (handle_request (T "HEAD") (T "/index.html") (T "HTTP/1.1") ∅ []
                 site_world)) = []
  ∧ header (T "Content-Length")
      (headers (snd (handle_request (T "HEAD") (T "/index.html") (T "HTTP/1.1") ∅ []
                       site_world))) = Some (T "5")
  ∧ ¬ content_length_exact
        (snd (handle_request (T "HEAD") (T "/index.html") (T "HTTP/1.1") ∅ []
                site_world)).
Proof.
  repeat split. unfold content_length_exact. vm_compute. discriminate.
Qed.

Lemma content_length_of_responses_witness :
  T "GET" ≠ T "HEAD"
  ∧ content_length_exact
      (snd (handle_request (T "GET") (T "/index.html") (T "HTTP/1.1") ∅ [] site_world))
  ∧ header (T "Content-Length")
      (headers (snd (handle_head (T "/index.html") ∅ site_world))) = Some (T "5").
Proof.
  assert (T "GET" ≠ T "HEAD") as Hget by (vm_compute; discriminate).
  destruct (content_length_of_responses (T "GET") (T "/index.html") (T "HTTP/1.1") ∅ []
              site_world) as (Hexact & _ & _ & Hhead).
  split; [exact Hget|]. split; [exact (Hexact Hget)|].
  apply (Hhead (T "/home/user/simple_http/www/index.html") site_world 5%nat);
    reflexivity.
Defined.

Lemma head_not_found_content_length_witness :
  (∀ filepath, resolve_path (T "/missing.html") = Some filepath →
               os_path_isfile site_world filepath = false)
  ∧ header (T "Content-Length")
      (headers (snd (handle_head (T "/missing.html") ∅ site_world))) = Some (T "14")
  ∧ header (T "Content-Length")
      (headers (snd (handle_get (T "/missing.html") ∅ site_world))) = Some (T "13").
Proof.
  assert (∀ filepath, resolve_path (T "/missing.html") = Some filepath →
                      os_path_isfile site_world filepath = false) as Hmissing.
  { intros filepath Hp. vm_compute in Hp. injection Hp as <-. reflexivity. }
  split; [exact Hmissing|].
  destruct (head_not_found_content_length (T "/missing.html") ∅ site_world Hmissing)
    as (-> & -> & _ & _ & Hhead & _ & _ & Hget).
  split; [exact Hhead | exact Hget].
Defined.

(** A PUT to [/]: the target is the base directory itself, opening it for
    writing fails, and the answer is 500. *)
Lemma put_directory_path_fails :
  contains (T "..") (lstrip_slash (T "/")) = false
  ∧ os_path_isfile site_world (put_target (T "/")) = false
  ∧ status_code (snd (handle_put (T "/") ∅ (B "x") site_world)) = 500%nat
  ∧ header (T "Location") (headers (snd (handle_put (T "/") ∅ (B "x") site_world))) = None
  ∧ nodes (fst (handle_put (T "/") ∅ (B "x") site_world)) !! put_target (T "/") = None.
Proof. repeat split. Qed.

Lemma put_stores_body_witness :
  contains (T "..") (lstrip_slash (T "/notes/a.txt")) = false
  ∧ os_path_isfile site_world (put_target (T "/notes/a.txt")) = false
  ∧ status_code (snd (handle_put (T "/notes/a.txt") ∅ (B "new") site_world)) = 201%nat
  ∧ header (T "Location")
      (headers (snd (handle_put (T "/notes/a.txt") ∅ (B "new") site_world)))
    = Some (T "/notes/a.txt")
  ∧ nodes (fst (handle_put (T "/notes/a.txt") ∅ (B "new") site_world))
      !! T "/home/user/simple_http/notes/a.txt" = Some (File (B "new")).
Proof.
  edestruct (put_stores_body (T "/notes/a.txt") ∅ (B "new") site_world)
    as (Hworld & Hcreated & _); [reflexivity..|].
  split; [reflexivity|]. split; [reflexivity|].
  destruct (Hcreated eq_refl) as [Hstatus Hlocation].
  split; [exact Hstatus|]. split; [exact Hlocation|].
  rewrite Hworld. reflexivity.
Defined.

(** A POST to [/post] when [~/simple_http] does not exist: the log cannot
    be opened, nothing is written, and the answer is 500. *)
Lemma post_without_log_directory_fails :
  status_code (snd (handle_post (T "/post") ∅ (B "hello") empty_world)) = 500%nat
  ∧ fst (handle_post (T "/post") ∅ (B "hello") empty_world) = empty_world.
Proof. repeat split. Qed.

Lemma post_appends_entry_witness :
  handle_post (T "/post") ∅ (B "hello") site_world
    = (Mem (<[POST_DATA_FILE :=
                File (utf8_encode (NL ++ T "[2024-05-06 07:08:09]" ++ NL
                                   ++ T "hello" ++ NL))]> (nodes site_world))
         (clock site_world),
       post_stored)
  ∧ T "/submit" ≠ T "/post"
  ∧ handle_post (T "/submit") ∅ (B "hello") site_world
    = (site_world, handle_unsupported (T "POST")).
Proof.
  destruct (post_appends_entry (T "/submit") ∅ (B "hello") site_world)
    as (Hstored & _ & _ & Hother).
  assert (T "/submit" ≠ T "/post") as Hpath by (vm_compute; discriminate).
  split; [|split; [exact Hpath | exact (proj1 (Hother Hpath))]].
  erewrite Hstored; [reflexivity | reflexivity..].
Defined.

Lemma dotdot_rejected_witness :
  contains (T "..") (lstrip_slash (strip_query (T "/a/../b?x=1"))) = true
  ∧ (fst (handle_get (T "/a/../b?x=1") ∅ site_world) = site_world
     ∧ status_code (snd (handle_get (T "/a/../b?x=1") ∅ site_world)) = 404%nat)
  ∧ (fst (handle_head (T "/a/../b?x=1") ∅ site_world) = site_world
     ∧ status_code (snd (handle_head (T "/a/../b?x=1") ∅ site_world)) = 404%nat)
  ∧ (fst (handle_put (T "/a/../b?x=1") ∅ (B "x") site_world) = site_world
     ∧ status_code (snd (handle_put (T "/a/../b?x=1") ∅ (B "x") site_world)) = 400%nat).
Proof.
  split; [reflexivity|].
  apply (dotdot_rejected (T "/a/../b?x=1") ∅ (B "x") site_world).
  reflexivity.
Defined.

(* ===================================================================== *)
(** ** The server at work *)
(* ===================================================================== *)

Example decode_drops_ill_formed_bytes :
  utf8_decode_ignore [xe2; x82; xac; xff; x41; xc3; x28; xe2; x82] = [8364; 65; 40].
Proof. reflexivity. Qed.

Example encode_then_decode :
  utf8_decode_ignore (utf8_encode [36; 233; 8364; 128512]) = [36; 233; 8364; 128512].
Proof. reflexivity. Qed.

Example split_keeps_empty_tokens :
  split (T " ") (T "GET  / HTTP/1.1") = [T "GET"; T ""; T "/"; T "HTTP/1.1"].
Proof. reflexivity. Qed.

Example strip_both_sides : strip (T "  close  ") = T "close".
Proof. reflexivity. Qed.

Example dirname_of_directory_path :
  os_path_dirname (T "/home/user/simple_http/") = T "/home/user/simple_http"
  ∧ os_path_basename (T "/home/user/simple_http/notes/a.txt") = T "a.txt".
Proof. split; reflexivity. Qed.

Example get_root_on_the_wire :
  handle_connection (λ n, nth n [B "GET / HTTP/1.1" ++ CRLF_b ++ B "Host: x" ++ CRLFCRLF_b] [])
    3 site_world
  = Some (site_world,
          Some (B "HTTP/1.1 200 OK" ++ CRLF_b
                ++ B "Content-Type: text/html" ++ CRLF_b
                ++ B "Content-Length: 5" ++ CRLF_b
                ++ B "Connection: close" ++ CRLFCRLF_b
                ++ B "hello")).
Proof. vm_compute. reflexivity. Qed.

Example delete_on_the_wire :
  handle_connection (λ n, nth n [B "DELETE /index.html HTTP/1.1" ++ CRLFCRLF_b] [])
    3 site_world
  = Some (site_world,
          Some (B "HTTP/1.1 405 Method Not Allowed" ++ CRLF_b
                ++ B "Content-Type: text/plain" ++ CRLF_b
                ++ B "Allow: GET, POST, PUT, HEAD" ++ CRLF_b
                ++ B "Content-Length: 18" ++ CRLF_b
                ++ B "Connection: close" ++ CRLFCRLF_b
                ++ B "Method Not Allowed")).
Proof. vm_compute. reflexivity. Qed.

(** [int] raises on a [Content-Length] that is no number: the connection
    is closed without a response. *)
Example non_numeric_content_length :
  handle_connection
    (λ n, nth n [B "PUT /a.txt HTTP/1.1" ++ CRLF_b ++ B "Content-Length: ten" ++ CRLFCRLF_b] [])
    3 site_world
  = Some (site_world, None).
Proof. vm_compute. reflexivity. Qed.

Example early_close_is_served :
  (snd <$> handle_connection early_close_stream 3 site_world)
  = Some (Some (serialize post_stored)).
Proof. vm_compute. reflexivity. Qed.

(* ===================================================================== *)
(** ** Further properties: splitting and the parser *)
(* ===================================================================== *)

Section MoreSequenceFacts.
Context {A : Type} `{EqDecision A}.
Implicit Types (sub sep s t : list A).
Local Open Scope nat_scope.

Lemma split_upto_not_nil (n : nat) sep s : split_upto n sep s ≠ [].
Proof. destruct n; cbn [split_upto]; [done|]. by destruct (find sep s). Qed.

Lemma join_cons sep (x : list A) (rest : list (list A)) :
  rest ≠ [] → join sep (x :: rest) = x ++ sep ++ join sep rest.
Proof. by destruct rest. Qed.

Lemma split_upto_join (n : nat) sep s : join sep (split_upto n sep s) = s.
Proof.
  revert s. induction n as [|n IH]; intros s; cbn [split_upto]; [done|].
  destruct (find sep s) as [i|] eqn:Ei; [|done].
  rewrite join_cons by apply split_upto_not_nil.
  rewrite IH. symmetry. by apply find_Some.
Qed.

Lemma contains_nil_false sep : 0 < length sep → contains sep [] = false.
Proof. destruct sep; [simpl; lia | done]. Qed.

Lemma split_upto_no_sep (n : nat) sep s :
  0 < length sep → length s ≤ n →
  Forall (λ t, contains sep t = false) (split_upto n sep s).
Proof.
  intros Hsep. revert s. induction n as [|n IH]; intros s Hn; cbn [split_upto].
  - destruct s; [|simpl in Hn; lia].
    constructor; [by apply contains_nil_false | constructor].
  - destruct (find sep s) as [i|] eqn:Ei.
    + constructor.
      * unfold contains. by rewrite (find_take_none _ _ _ Ei).
      * apply IH. rewrite length_drop. apply find_bound in Ei. lia.
    + constructor; [|constructor]. unfold contains. by rewrite Ei.
Qed.

Lemma find_single_app (c : A) (p q : list A) :
  find [c] p = None → find [c] (p ++ c :: q) = Some (length p).
Proof.
  induction p as [|x p IH]; intros Hp.
  - simpl. by rewrite decide_True.
  - rewrite find_cons in Hp. simpl app. rewrite find_cons.
    simpl startswith in *. destruct (decide (c = x)); [done|].
    destruct (find [c] p); [done|]. by rewrite IH.
Qed.

End MoreSequenceFacts.

Section MoreParserFacts.
Context `{PyLib}.
Local Open Scope nat_scope.

Lemma parse_request_body_part (raw_request : bytes) (rq : request) :
  parse_request raw_request = Some rq → rq_body rq = body_part raw_request.
Proof.
  unfold parse_request.
  destruct (header_lines raw_request) as [|l ls]; [done|].
  destruct (split (T " ") l) as [|m [|p [|q [|? ?]]]]; try done.
  by intros [= <-].
Qed.


(** X2. The request line of a parsed request is [method SP path SP
    version], and none of the three contains a space. *)
Theorem parse_request_tokens (raw_request : bytes) (rq : request) :
  parse_request raw_request = Some rq →
  request_line raw_request
    = rq_method rq ++ T " " ++ rq_path rq ++ T " " ++ rq_version rq
  ∧ contains (T " ") (rq_method rq) = false
  ∧ contains (T " ") (rq_path rq) = false
  ∧ contains (T " ") (rq_version rq) = false.
Proof.
  unfold parse_request, request_line.
  destruct (header_lines raw_request) as [|l ls]; [done|]. cbn [hd].
  pose proof (split_upto_join (length l) (T " ") l) as Hjoin.
  pose proof (split_upto_no_sep (length l) (T " ") l ltac:(simpl; lia) ltac:(lia))
    as Hno.
  fold (split (T " ") l) in Hjoin, Hno.
  destruct (split (T " ") l) as [|m [|p [|q [|? ?]]]]; try done.
  intros [= <-]. cbn [rq_method rq_path rq_version].
  split; [done|]. by repeat (apply Forall_cons in Hno as [? Hno]).
Qed.

Section Respond.
Context {W : Type} `{OS W}.

Lemma respond_app (a b : bytes) (w : W) :
  contains CRLFCRLF_b a = true →
  (∀ rq, parse_request a = Some rq →
         rq_method rq ≠ T "POST" ∧ rq_method rq ≠ T "PUT") →
  respond (a ++ b) w = respond a w.
Proof.
  intros Ha Hm. unfold respond. rewrite (parse_request_app a b Ha).
  destruct (parse_request a) as [rq|]; [|done].
  destruct (Hm rq eq_refl) as [Hpost Hput]. cbn.
  unfold handle_request. by repeat case_decide.
Qed.

(** X3. Once the blank line has arrived, further bytes leave method,
    path, version and headers as they are and only extend the body; the
    response to a request that is neither POST nor PUT, or that does not
    parse, does not depend on them. *)
Theorem bytes_after_blank_line (a b : bytes) (w : W) :
  contains CRLFCRLF_b a = true →
  parse_request (a ++ b)
    = (λ rq, Request (rq_method rq) (rq_path rq) (rq_version rq) (rq_headers rq)
               (rq_body rq ++ b)) <$> parse_request a
  ∧ ((∀ rq, parse_request a = Some rq →
            rq_method rq ≠ T "POST" ∧ rq_method rq ≠ T "PUT") →
     respond (a ++ b) w = respond a w).
Proof.
  intros Ha. split; [by apply parse_request_app | by apply respond_app].
Qed.
End Respond.
End MoreParserFacts.


Lemma parse_request_tokens_witness :
  parse_request duplicate_headers_request = Some duplicate_headers_parsed
  ∧ request_line duplicate_headers_request
    = T "GET" ++ T " " ++ T "/index.html" ++ T " " ++ T "HTTP/1.1".
Proof.
  assert (parse_request duplicate_headers_request = Some duplicate_headers_parsed) as Hp
    by reflexivity.
  split; [exact Hp|].
  exact (proj1 (parse_request_tokens _ _ Hp)).
Defined.

Lemma bytes_after_blank_line_witness :
  contains CRLFCRLF_b get_root_request = true
  ∧ (∀ rq, parse_request get_root_request = Some rq →
           rq_method rq ≠ T "POST" ∧ rq_method rq ≠ T "PUT")
  ∧ respond (get_root_request ++ B "more") site_world
    = respond get_root_request site_world.
Proof.
  assert (contains CRLFCRLF_b get_root_request = true) as Hc by reflexivity.
  assert (∀ rq, parse_request get_root_request = Some rq →
                rq_method rq ≠ T "POST" ∧ rq_method rq ≠ T "PUT") as Hm.
  { intros rq Hrq. vm_compute in Hrq. injection Hrq as <-.
    split; vm_compute; discriminate. }
  split; [exact Hc|]. split; [exact Hm|].
  exact (proj2 (bytes_after_blank_line get_root_request (B "more") site_world Hc) Hm).
Defined.

(* ===================================================================== *)
(** ** Further properties: paths *)
(* ===================================================================== *)

Section MorePathFacts.
Context `{PyLib}.
Local Open Scope nat_scope.

(** X4. [resolve_path] refuses a path exactly when the path, without its
    query and its leading slashes, contains [".."]: nothing else is ever
    refused, and a harmless name such as [a..b] is. *)
Theorem resolve_path_refuses_exactly_dotdot (http_path : text) :
  (resolve_path http_path = None
   ↔ contains (T "..") (lstrip_slash (strip_query http_path)) = true)
  ∧ resolve_path (T "/a..b") = None.
Proof.
  split; [|reflexivity]. split; [|apply dotdot_resolve_path].
  rewrite resolve_path_eq. cbv zeta. case_decide as Hroot.
  - intros Hnone. vm_compute in Hnone. discriminate Hnone.
  - by destruct (contains (T "..") (lstrip_slash (strip_query http_path))).
Qed.

Lemma strip_query_app (p q : text) :
  contains (T "?") p = false → strip_query (p ++ T "?" ++ q) = p.
Proof.
  unfold contains, strip_query. change (T "?") with [63%N].
  destruct (find [63%N] p) eqn:Hp; [done|]. intros _.
  change (p ++ [63%N] ++ q) with (p ++ 63%N :: q).
  rewrite (find_single_app 63%N p q Hp). by rewrite take_app_length.
Qed.

Lemma strip_query_none (p : text) : contains (T "?") p = false → strip_query p = p.
Proof.
  unfold contains, strip_query. by destruct (find (T "?") p).
Qed.

(** X5. A query string never changes the file a path resolves to. *)
Theorem resolve_path_ignores_query (http_path query : text) :
  contains (T "?") http_path = false →
  resolve_path (http_path ++ T "?" ++ query) = resolve_path http_path.
Proof.
  intros Hp. rewrite !resolve_path_eq.
  by rewrite (strip_query_app _ _ Hp), (strip_query_none _ Hp).
Qed.


Section Put.
Context {W : Type} `{OS W}.

End Put.
End MorePathFacts.

Lemma resolve_path_ignores_query_witness :
  contains (T "?") (T "/docs/a.html") = false
  ∧ resolve_path (T "/docs/a.html" ++ T "?" ++ T "v=../..")
    = Some (T "/home/user/simple_http/www/docs/a.html").
Proof.
  assert (contains (T "?") (T "/docs/a.html") = false) as Hp by reflexivity.
  split; [exact Hp|].
  rewrite (resolve_path_ignores_query (T "/docs/a.html") (T "v=../..") Hp).
  reflexivity.
Defined.


(* ===================================================================== *)
(** ** Further properties: routing and the handlers *)
(* ===================================================================== *)

Lemma build_response_body (code : nat) (reason : text) (hs : list (text * text))
    (b : bytes) :
  build_response code reason hs b = build_response code reason hs [] ++ b.
Proof.
  unfold build_response. rewrite app_nil_r. by rewrite <- !(assoc_L (++)).
Qed.

Section MoreHandlerFacts.
Context `{PyLib} {W : Type} `{OS W}.
Implicit Types (w : W) (hs : gmap text text).

(** Unfolds a handler and splits on every outcome of its calls. *)
Ltac run_calls :=
  unfold handle_get, handle_head, handle_post, handle_put,
    try_except, with_open, mbind, mret, io_mbind, io_mret, io_bind, io_ret;
  cbv beta zeta;
  repeat case_match; simplify_eq; cbn [fst snd status_code headers body].

(** X7. A method other than the exact tokens GET, POST, PUT and HEAD
    (so also [get] in lower case) is answered 405 with
    [Allow: GET, POST, PUT, HEAD] and the body [Method Not Allowed],
    whatever the path, and nothing else happens. *)
Theorem unsupported_method (method path version : text) hs (request_body : bytes) w :
  method ∉ [T "GET"; T "POST"; T "PUT"; T "HEAD"] →
  handle_request method path version hs request_body w = (w, handle_unsupported method)
  ∧ serialize (handle_unsupported method)
    = B "HTTP/1.1 405 Method Not Allowed" ++ CRLF_b
      ++ B "Content-Type: text/plain" ++ CRLF_b
      ++ B "Allow: GET, POST, PUT, HEAD" ++ CRLF_b
      ++ B "Content-Length: 18" ++ CRLF_b
      ++ B "Connection: close" ++ CRLFCRLF_b
      ++ B "Method Not Allowed".
Proof.
  intros Hm. split; [|reflexivity]. unfold handle_request.
  repeat case_decide; subst; try done; exfalso; apply Hm; set_solver.
Qed.

Lemma handle_request_status (method path version : text) hs (request_body : bytes) w :
  status_code (snd (handle_request method path version hs request_body w))
    ∈ status_codes.
Proof.
  destruct (handle_request_cases method path version hs request_body w)
    as [[-> ->]|[[-> ->]|[[-> ->]|[[-> ->]| ->]]]].
  - destruct (handle_get_cases path hs w) as [->|[->|(m & b & ->)]];
      cbn; unfold status_codes; set_solver.
  - destruct (handle_post_cases path hs request_body w) as [->|[->| ->]];
      cbn; unfold status_codes; set_solver.
  - destruct (handle_put_cases path hs request_body w) as [->|[->|([] & ->)]];
      cbn; unfold status_codes; set_solver.
  - destruct (handle_head_cases path hs w) as [->|[->|(m & n & ->)]];
      cbn; unfold status_codes; set_solver.
  - cbn; unfold status_codes; set_solver.
Qed.

(** X8. Whatever bytes were received, the response has one of the status
    codes 200, 201, 400, 404, 405 and 500. *)
Theorem respond_status_codes (raw_request : bytes) w :
  status_code (snd (respond raw_request w)) ∈ status_codes.
Proof.
  unfold respond. destruct (parse_request raw_request) as [rq|].
  - apply handle_request_status.
  - cbn. unfold status_codes. set_solver.
Qed.

Lemma rejected_code (n : nat) :
  n ∈ [400; 404; 405]%nat → n ≠ 200%nat ∧ n ≠ 201%nat ∧ n ≠ 500%nat.
Proof.
  rewrite !elem_of_cons, elem_of_nil. intros [->|[->|[->|[]]]]; repeat split; lia.
Qed.

(** X9. A request answered 400, 404 or 405 has had no effect on the
    filesystem. *)
Theorem rejected_request_changes_nothing (raw_request : bytes) w :
  status_code (snd (respond raw_request w)) ∈ [400; 404; 405]%nat →
  fst (respond raw_request w) = w.
Proof.
  intros Hcode%rejected_code. revert Hcode. unfold respond.
  destruct (parse_request raw_request) as [rq|]; [|done].
  unfold handle_request. repeat case_decide; [| | | |done].
  all: run_calls; try done; intros (? & ? & ?); done.
Qed.


(** X11. HEAD and GET of the same path agree: one answers 404 exactly
    when the other does; and when GET serves a file whose size the
    filesystem reports as the number of bytes read, both have status 200
    and the same headers, and the GET response is the HEAD response
    followed by the file content. *)
Theorem head_agrees_with_get (path : text) hs w :
  (status_code (snd (handle_head path hs w)) = 404%nat
   ↔ status_code (snd (handle_get path hs w)) = 404%nat)
  ∧ (∀ filepath w1 w2 w3 w' content,
       resolve_path path = Some filepath →
       os_path_isfile w filepath = true →
       file_open filepath RB w = (w1, Some ()) →
       file_read filepath w1 = (w2, Some content) →
       file_close filepath w2 = (w3, Some ()) →
       os_path_getsize filepath w = (w', Some (len content)) →
       status_code (snd (handle_head path hs w)) = 200%nat
       ∧ status_code (snd (handle_get path hs w)) = 200%nat
       ∧ headers (snd (handle_head path hs w)) = headers (snd (handle_get path hs w))
       ∧ body (snd (handle_head path hs w)) = []
       ∧ body (snd (handle_get path hs w)) = content
       ∧ serialize (snd (handle_get path hs w))
         = serialize (snd (handle_head path hs w)) ++ content).
Proof.
  split.
  - run_calls; done.
  - intros fp w1 w2 w3 w' c Hp Hf Ho Hr Hc Hs.
    unfold handle_head, handle_get, try_except, with_open, mbind, mret,
      io_mbind, io_mret, io_bind, io_ret.
    rewrite Hp, Hf. cbn [negb]. rewrite Ho, Hr, Hc, Hs.
    cbn [snd status_code headers body]. repeat split.
    unfold serialize. cbn [status_code reason headers body].
    apply build_response_body.
Qed.

(** X12. POST answers 200 only for the path [/post] and only after the
    log was opened for appending, all three pieces of the entry were
    written and the file was closed, each without an exception. *)
Theorem post_success_means_written (path : text) hs (request_body : bytes) w :
  status_code (snd (handle_post path hs request_body w)) = 200%nat →
  path = T "/post"
  ∧ ∃ w1 w2 w3 w4,
      file_open POST_DATA_FILE AT w = (w1, Some ())
      ∧ file_write_str POST_DATA_FILE
          (NL ++ T "[" ++ datetime_now w ++ T "]" ++ NL) w1 = (w2, Some ())
      ∧ file_write_str POST_DATA_FILE (utf8_decode_ignore request_body) w2
        = (w3, Some ())
      ∧ file_write_str POST_DATA_FILE NL w3 = (w4, Some ())
      ∧ file_close POST_DATA_FILE w4
        = (fst (handle_post path hs request_body w), Some ()).
Proof.
  unfold handle_post.
  destruct (bool_decide (path = T "/post")) eqn:Hpath; cbn [negb]; [|done].
  apply bool_decide_eq_true in Hpath. intros Hcode. split; [done|]. revert Hcode.
  unfold try_except, with_open, mbind, mret, io_mbind, io_mret, io_bind, io_ret.
  cbv beta zeta.
  repeat case_match; simplify_eq; cbn [fst snd status_code]; try done. intros _.
  repeat match goal with u : unit |- _ => destruct u end.
  eauto 10.
Qed.

(** X13. PUT answers 200 or 201 only after the parent directories were
    made and the target was opened for writing, given exactly the request
    body, and closed, each without an exception; it is 201 exactly when
    the target was not a regular file before, and [Location] is present
    exactly then. *)
Theorem put_success_means_written (path : text) hs (request_body : bytes) w :
  status_code (snd (handle_put path hs request_body w)) = 200%nat
  ∨ status_code (snd (handle_put path hs request_body w)) = 201%nat →
  (∃ w1 w2 w3,
     os_makedirs (os_path_dirname (put_target path)) w = (w1, Some ())
     ∧ file_open (put_target path) WB w1 = (w2, Some ())
     ∧ file_write (put_target path) request_body w2 = (w3, Some ())
     ∧ file_close (put_target path) w3
       = (fst (handle_put path hs request_body w), Some ()))
  ∧ (status_code (snd (handle_put path hs request_body w)) = 201%nat
     ↔ os_path_isfile w (put_target path) = false)
  ∧ (is_Some (header (T "Location") (headers (snd (handle_put path hs request_body w))))
     ↔ os_path_isfile w (put_target path) = false).
Proof.
  unfold handle_put. fold (put_target path).
  destruct (contains (T "..") (lstrip_slash path)); [by intros [|]|].
  unfold try_except, with_open, mbind, mret, io_mbind, io_mret, io_bind, io_ret.
  cbv beta zeta.
  destruct (os_makedirs _ w) as [w1 [[]|]] eqn:Hdirs; [|by intros [|]].
  destruct (file_open _ WB w1) as [w2 [[]|]] eqn:Hopen; [|by intros [|]].
  destruct (file_write _ request_body w2) as [w3 [[]|]] eqn:Hwrite.
  - destruct (file_close _ w3) as [w4 [[]|]] eqn:Hclose; [|by intros [|]]. intros _.
    split.
    { exists w1, w2, w3. by destruct (os_path_isfile w (put_target path)). }
    destruct (os_path_isfile w (put_target path)); cbn [snd status_code headers].
    + split; [done|]. split; [|done]. intros [v Hv]. vm_compute in Hv. discriminate Hv.
    + split; [done|]. split; [done|]. intros _.
      match goal with |- context [utf8_encode ?f] => generalize (utf8_encode f) end.
      intros b. generalize (str (len b)). intros l.
      unfold header. rewrite decide_False by (by vm_compute).
      rewrite decide_False by (by vm_compute).
      rewrite decide_True by reflexivity. by eexists.
  - destruct (file_close _ w3) as [w4 [[]|]]; by intros [|].
Qed.
End MoreHandlerFacts.

Lemma unsupported_method_witness :
  (T "get" ∉ [T "GET"; T "POST"; T "PUT"; T "HEAD"])
  ∧ handle_request (T "get") (T "/index.html") (T "HTTP/1.1") ∅ [] site_world
    = (site_world, handle_unsupported (T "get")).
Proof.
  assert (T "get" ∉ [T "GET"; T "POST"; T "PUT"; T "HEAD"]) as Hm.
  { intros Hin. vm_compute in Hin.
    repeat (apply elem_of_cons in Hin as [Hin|Hin]; [discriminate Hin|]).
    by apply elem_of_nil in Hin. }
  split; [exact Hm|].
  exact (proj1 (unsupported_method (T "get") (T "/index.html") (T "HTTP/1.1") ∅ []
                  site_world Hm)).
Defined.

Lemma rejected_request_changes_nothing_witness :
  status_code (snd (respond (B "GET /missing.html HTTP/1.1" ++ CRLFCRLF_b) site_world))
    ∈ [400; 404; 405]%nat
  ∧ fst (respond (B "GET /missing.html HTTP/1.1" ++ CRLFCRLF_b) site_world) = site_world.
Proof.
  assert (status_code
            (snd (respond (B "GET /missing.html HTTP/1.1" ++ CRLFCRLF_b) site_world))
            ∈ [400; 404; 405]%nat) as Hcode.
  { change (404%nat ∈ [400; 404; 405]%nat). apply list_elem_of_further, list_elem_of_here. }
  split; [exact Hcode|].
  exact (rejected_request_changes_nothing _ site_world Hcode).
Defined.

Lemma head_agrees_with_get_witness :
  headers (snd (handle_head (T "/index.html") ∅ site_world))
    = headers (snd (handle_get (T "/index.html") ∅ site_world))
  ∧ serialize (snd (handle_get (T "/index.html") ∅ site_world))
    = serialize (snd (handle_head (T "/index.html") ∅ site_world)) ++ B "hello".
Proof.
  destruct (head_agrees_with_get (T "/index.html") ∅ site_world) as [_ Hsame].
  destruct (Hsame (T "/home/user/simple_http/www/index.html") site_world site_world
              site_world site_world (B "hello")
              eq_refl eq_refl eq_refl eq_refl eq_refl eq_refl)
    as (_ & _ & Hh & _ & _ & Hs).
  split; [exact Hh | exact Hs].
Defined.

Lemma post_success_means_written_witness :
  status_code (snd (handle_post (T "/post") ∅ (B "hello") site_world)) = 200%nat
  ∧ ∃ w1 w2 w3 w4,
      file_open POST_DATA_FILE AT site_world = (w1, Some ())
      ∧ file_write_str POST_DATA_FILE
          (NL ++ T "[" ++ datetime_now site_world ++ T "]" ++ NL) w1 = (w2, Some ())
      ∧ file_write_str POST_DATA_FILE (utf8_decode_ignore (B "hello")) w2
        = (w3, Some ())
      ∧ file_write_str POST_DATA_FILE NL w3 = (w4, Some ())
      ∧ file_close POST_DATA_FILE w4
        = (fst (handle_post (T "/post") ∅ (B "hello") site_world), Some ()).
Proof.
  assert (status_code (snd (handle_post (T "/post") ∅ (B "hello") site_world)) = 200%nat)
    as Hcode by reflexivity.
  split; [exact Hcode|].
  exact (proj2 (post_success_means_written (T "/post") ∅ (B "hello") site_world Hcode)).
Defined.

Lemma put_success_means_written_witness :
  status_code (snd (handle_put (T "/notes/a.txt") ∅ (B "new") site_world)) = 201%nat
  ∧ os_path_isfile site_world (put_target (T "/notes/a.txt")) = false
  ∧ is_Some (header (T "Location")
               (headers (snd (handle_put (T "/notes/a.txt") ∅ (B "new") site_world)))).
Proof.
  assert (status_code (snd (handle_put (T "/notes/a.txt") ∅ (B "new") site_world))
          = 201%nat) as Hcode by reflexivity.
  destruct (put_success_means_written (T "/notes/a.txt") ∅ (B "new") site_world
              (or_intror Hcode)) as (_ & Hcreated & Hlocation).
  split; [exact Hcode|]. split; [exact (proj1 Hcreated Hcode)|].
  exact (proj2 Hlocation (proj1 Hcreated Hcode)).
Defined.

(* ===================================================================== *)
(** ** Further properties: the read loop *)
(* ===================================================================== *)

Section MoreReaderFacts.
Context `{PyLib}.
Variable recv : nat → bytes.
Local Open Scope nat_scope.

Lemma contains_sent_false (c k : nat) :
  c ≤ k → contains CRLFCRLF_b (sent recv k) = false →
  contains CRLFCRLF_b (sent recv c) = false.
Proof.
  intros [rest Hrest]%(sent_app recv) Hk.
  destruct (contains CRLFCRLF_b (sent recv c)) eqn:Hc; [|done].
  by rewrite Hrest, (contains_app_l _ _ rest Hc) in Hk.
Qed.

Lemma contains_sent_true (c k : nat) :
  c ≤ k → contains CRLFCRLF_b (sent recv c) = true →
  contains CRLFCRLF_b (sent recv k) = true.
Proof.
  intros [rest ->]%(sent_app recv) Hc. by apply contains_app_l.
Qed.

(** The outer loop goes on while no blank line has come and the reads are
    not empty. *)
Lemma read_request_skip (k : nat) :
  contains CRLFCRLF_b (sent recv k) = false →
  (∀ i, i < k → recv i ≠ []) →
  ∀ d c fuel, c + d = k →
    read_request recv (d + fuel) c (sent recv c) = read_request recv fuel k (sent recv k).
Proof.
  intros Hk Hopen. induction d as [|d IH]; intros c fuel Hc.
  - by replace c with k by lia.
  - cbn [Nat.add read_request]. change (sent recv c ++ recv c) with (sent recv (S c)).
    rewrite (contains_sent_false (S c) k) by (done || lia).
    pose proof (Hopen c ltac:(lia)) as Hchunk.
    destruct (recv c) as [|x chunk]; [done|]. apply IH. lia.
Qed.

(** The inner loop goes on while bytes are missing and the reads are not
    empty. *)
Lemma read_body_until_enough (body_start : nat) (content_length : Z) (j : nat) :
  (content_length ≤ Z.of_nat (len (sent recv j)) - Z.of_nat body_start)%Z →
  ∀ d c fuel, c + d = j →
    (∀ m, c ≤ m < j →
          (Z.of_nat (len (sent recv m)) - Z.of_nat body_start < content_length)%Z
          ∧ recv m ≠ []) →
    read_body recv (d + S fuel) c (sent recv c)
      (Z.of_nat (len (sent recv c)) - Z.of_nat body_start) content_length
    = Some (sent recv j).
Proof.
  intros Henough. induction d as [|d IH]; intros c fuel Hc Hbefore.
  - replace c with j by lia. cbn [Nat.add read_body].
    by destruct (Z.ltb_spec (Z.of_nat (len (sent recv j)) - Z.of_nat body_start)
                   content_length) as [Hlt|Hge]; [lia|].
  - cbn [Nat.add read_body]. destruct (Hbefore c ltac:(lia)) as [Hshort Hchunk].
    destruct (Z.ltb_spec (Z.of_nat (len (sent recv c)) - Z.of_nat body_start)
                content_length) as [_|Hge]; [|lia].
    destruct (recv c) as [|x chunk] eqn:Erecv; [done|].
    specialize (IH (S c) fuel ltac:(lia)). cbn [sent] in IH. rewrite Erecv in IH.
    rewrite <- IH.
    + f_equal. unfold len. rewrite length_app. lia.
    + intros m Hm. apply Hbefore. lia.
Qed.

(** What the inner loop returns is what was received so far, and either
    enough of it or the last read was empty. *)
Lemma read_body_result (body_start : nat) (content_length : Z) :
  ∀ fuel c raw,
    read_body recv fuel c (sent recv c)
      (Z.of_nat (len (sent recv c)) - Z.of_nat body_start) content_length = Some raw →
    ∃ n, c ≤ n ∧ n ≤ c + fuel ∧ raw = sent recv n
         ∧ ((content_length ≤ Z.of_nat (len (sent recv n)) - Z.of_nat body_start)%Z
            ∨ (0 < n ∧ recv (n - 1) = [])).
Proof.
  induction fuel as [|fuel IH]; intros c raw; cbn [read_body]; [done|].
  destruct (Z.ltb_spec (Z.of_nat (len (sent recv c)) - Z.of_nat body_start)
              content_length) as [Hlt|Hge].
  - destruct (recv c) as [|x chunk] eqn:Erecv.
    + intros [= <-]. exists (S c). cbn [sent]. rewrite Erecv, app_nil_r.
      repeat split; [lia | lia |]. right. split; [lia|].
      by replace (S c - 1) with c by lia.
    + intros Hr. specialize (IH (S c) raw). cbn [sent] in IH. rewrite Erecv in IH.
      destruct IH as (n & Hn1 & Hn2 & Hn3 & Hn4).
      * rewrite <- Hr. f_equal. unfold len. rewrite length_app. lia.
      * exists n. repeat split; [lia | lia | done | done].
  - intros [= <-]. exists c. repeat split; [lia | lia |]. by left.
Qed.

(** X14. What the read loop hands over is exactly the bytes of the reads
    it made, in order: nothing is dropped, reordered or added.  It makes
    at most as many reads as it has fuel, and it stops only with a blank
    line in the buffer or after an empty read. *)
Theorem read_request_returns_what_was_received (fuel : nat) (raw_request : bytes) :
  read_request recv fuel 0 [] = Some (Received raw_request) →
  ∃ n, n ≤ fuel ∧ raw_request = sent recv n
       ∧ (contains CRLFCRLF_b raw_request = true ∨ (0 < n ∧ recv (n - 1) = [])).
Proof.
  assert (∀ fuel c raw,
            read_request recv fuel c (sent recv c) = Some (Received raw) →
            ∃ n, c ≤ n ∧ n ≤ c + fuel ∧ raw = sent recv n
                 ∧ (contains CRLFCRLF_b raw = true ∨ (0 < n ∧ recv (n - 1) = [])))
    as Hloop.
  { clear fuel raw_request.
    induction fuel as [|fuel IH]; intros c raw; cbn [read_request]; [done|].
    change (sent recv c ++ recv c) with (sent recv (S c)).
    destruct (contains CRLFCRLF_b (sent recv (S c))) eqn:Hnow.
    - assert (Some (Received raw) = Some (Received (sent recv (S c))) →
              ∃ n, c ≤ n ∧ n ≤ c + S fuel ∧ raw = sent recv n
                   ∧ (contains CRLFCRLF_b raw = true ∨ (0 < n ∧ recv (n - 1) = [])))
        as Hhere.
      { intros [= ->]. exists (S c). repeat split; [lia | lia |]. by left. }
      destruct (parse_request (sent recv (S c))) as [rq|]; [|by intros Hr; apply Hhere].
      destruct (bool_decide _); [|by intros Hr; apply Hhere].
      destruct (rq_headers rq !! T "content-length") as [v|];
        [|by intros Hr; apply Hhere].
      destruct (int_of_str v) as [content_length|]; [|done].
      destruct (find CRLFCRLF_b (sent recv (S c))) as [i|]; [|done].
      destruct (read_body recv fuel (S c) (sent recv (S c)) _ content_length)
        as [raw'|] eqn:Hbody; [|done].
      intros [= <-].
      destruct (read_body_result (i + 4) content_length _ _ _ Hbody)
        as (n & Hn1 & Hn2 & -> & _).
      exists n. repeat split; [lia | lia |]. left.
      by apply (contains_sent_true (S c) n).
    - destruct (recv c) as [|x chunk] eqn:Erecv.
      + intros [= <-]. exists (S c). repeat split; [lia | lia |]. right.
        split; [lia|]. by replace (S c - 1) with c by lia.
      + intros Hr. destruct (IH (S c) raw Hr) as (n & Hn1 & Hn2 & Hn3 & Hn4).
        exists n. repeat split; [lia | lia | done | done]. }
  intros Hr. destruct (Hloop fuel 0 raw_request Hr) as (n & _ & Hn & Hraw & Hend).
  exists n. repeat split; [lia | done | done].
Qed.

(** X15. When the read loop hands over a POST or PUT with a numeric
    [Content-Length], the body has at least that many bytes, unless the
    last read was empty (the peer closed early). *)
Theorem content_length_is_awaited (fuel : nat) (raw_request : bytes) (rq : request)
    (v : text) (content_length : Z) :
  read_request recv fuel 0 [] = Some (Received raw_request) →
  contains CRLFCRLF_b raw_request = true →
  parse_request raw_request = Some rq →
  rq_method rq ∈ [T "POST"; T "PUT"] →
  rq_headers rq !! T "content-length" = Some v →
  int_of_str v = Some content_length →
  (content_length ≤ Z.of_nat (len (rq_body rq)))%Z
  ∨ ∃ n, 0 < n ∧ recv (n - 1) = [] ∧ raw_request = sent recv n.
Proof.
  intros Hr Hblank Hparse Hmethod Hcl Hint.
  assert (∀ fuel c,
            contains CRLFCRLF_b (sent recv c) = false →
            read_request recv fuel c (sent recv c) = Some (Received raw_request) →
            (content_length ≤ Z.of_nat (len (rq_body rq)))%Z
            ∨ ∃ n, 0 < n ∧ recv (n - 1) = [] ∧ raw_request = sent recv n) as Hloop.
  { clear fuel Hr.
    induction fuel as [|fuel IH]; intros c Hnone; cbn [read_request]; [done|].
    change (sent recv c ++ recv c) with (sent recv (S c)).
    destruct (contains CRLFCRLF_b (sent recv (S c))) eqn:Hnow.
    - assert (∀ rest, raw_request = sent recv (S c) ++ rest →
                parse_request (sent recv (S c))
                = Some (Request (rq_method rq) (rq_path rq) (rq_version rq)
                          (rq_headers rq) (body_part (sent recv (S c))))) as Hsame.
      { intros rest Hrest. pose proof (parse_request_app _ rest Hnow) as Happ.
        rewrite <- Hrest, Hparse in Happ.
        destruct (parse_request (sent recv (S c))) as [rq'|] eqn:Hp'; [|done].
        injection Happ as ->. cbn [rq_method rq_path rq_version rq_headers].
        pose proof (parse_request_body_part _ _ Hp') as Hb.
        destruct rq'; cbn in *. congruence. }
      destruct (parse_request (sent recv (S c))) as [rq'|] eqn:Hp'.
      + destruct (bool_decide (rq_method rq' ∈ [T "POST"; T "PUT"])) eqn:Hm'.
        * destruct (rq_headers rq' !! T "content-length") as [v'|] eqn:Hv'.
          -- destruct (int_of_str v') as [cl'|] eqn:Hint'; [|done].
             destruct (find CRLFCRLF_b (sent recv (S c))) as [i|] eqn:Hi; [|done].
             destruct (read_body recv fuel (S c) (sent recv (S c)) _ cl')
               as [raw'|] eqn:Hbody; [|done].
             intros [= ->].
             destruct (read_body_result (i + 4) cl' _ _ _ Hbody)
               as (n & Hn1 & _ & -> & Hn4).
             destruct (sent_app recv (S c) n Hn1) as [rest Hrest].
             specialize (Hsame rest Hrest). injection Hsame as ->. cbn [rq_method rq_headers] in *.
             rewrite Hcl in Hv'. injection Hv' as <-.
             rewrite Hint in Hint'. injection Hint' as <-.
             destruct Hn4 as [Henough|[Hpos Hempty]]; [left | right; by exists n].
             pose proof (find_app _ _ rest _ Hi) as HiN. rewrite <- Hrest in HiN.
             rewrite (parse_request_body_part _ _ Hparse), (body_part_length _ _ HiN).
             apply find_bound in HiN. change (length CRLFCRLF_b) with 4 in HiN.
             unfold len in *. lia.
          -- intros [= <-]. specialize (Hsame [] ltac:(by rewrite app_nil_r)).
             injection Hsame as ->.
             cbn [rq_headers] in Hv'. congruence.
        * intros [= <-]. specialize (Hsame [] ltac:(by rewrite app_nil_r)).
          injection Hsame as ->.
          cbn [rq_method] in Hm'. apply bool_decide_eq_false in Hm'. done.
      + intros [= <-]. cbn [sent] in *. congruence.
    - destruct (recv c) as [|x chunk] eqn:Erecv.
      + intros [= <-]. right. exists (S c). cbn [sent]. rewrite Erecv.
        split; [lia|]. split; [|done]. by replace (S c - 1) with c by lia.
      + by apply IH. }
  by apply (Hloop fuel 0).
Qed.

(** X16. When the blank line arrives with read number [k] and the request
    is neither a POST nor a PUT with a [Content-Length] (or does not
    parse), the read loop stops there: it does not wait for a body or for
    the peer to close, and it makes no further read. *)
Theorem no_body_expected_stops_at_blank_line (k fuel : nat) :
  contains CRLFCRLF_b (sent recv k) = false →
  contains CRLFCRLF_b (sent recv (S k)) = true →
  (∀ i, i < k → recv i ≠ []) →
  (∀ rq, parse_request (sent recv (S k)) = Some rq →
         rq_method rq ∈ [T "POST"; T "PUT"] →
         rq_headers rq !! T "content-length" = None) →
  k < fuel →
  read_request recv fuel 0 [] = Some (Received (sent recv (S k))).
Proof.
  intros Hbefore Hnow Hopen Hnobody Hfuel.
  replace fuel with (k + S (fuel - S k)) by lia.
  rewrite (read_request_skip k Hbefore Hopen k 0) by lia.
  cbn [read_request]. change (sent recv k ++ recv k) with (sent recv (S k)).
  rewrite Hnow. destruct (parse_request (sent recv (S k))) as [rq|]; [|done].
  destruct (bool_decide (rq_method rq ∈ [T "POST"; T "PUT"])) eqn:Hm; [|done].
  apply bool_decide_eq_true in Hm. by rewrite (Hnobody rq eq_refl Hm).
Qed.

(** X17. For a POST or PUT with a numeric [Content-Length], reading goes
    on after the blank line (read number [k]) exactly until the body
    received so far reaches the announced length, at read number [j - 1]:
    the loop returns all [j] reads, without cutting the body down to
    [Content-Length], and it makes no further read. *)
Theorem reads_until_content_length (k j fuel i : nat) (rq : request) (v : text)
    (content_length : Z) :
  contains CRLFCRLF_b (sent recv k) = false →
  (∀ m, m < k → recv m ≠ []) →
  find CRLFCRLF_b (sent recv (S k)) = Some i →
  parse_request (sent recv (S k)) = Some rq →
  rq_method rq ∈ [T "POST"; T "PUT"] →
  rq_headers rq !! T "content-length" = Some v →
  int_of_str v = Some content_length →
  S k ≤ j →
  (∀ m, S k ≤ m < j →
        (Z.of_nat (len (sent recv m)) - Z.of_nat (i + 4) < content_length)%Z
        ∧ recv m ≠ []) →
  (content_length ≤ Z.of_nat (len (sent recv j)) - Z.of_nat (i + 4))%Z →
  j < fuel →
  read_request recv fuel 0 [] = Some (Received (sent recv j)).
Proof.
  intros Hbefore Hopen Hi Hparse Hmethod Hcl Hint Hkj Hshort Henough Hfuel.
  replace fuel with (k + S (fuel - S k)) by lia.
  rewrite (read_request_skip k Hbefore Hopen k 0) by lia.
  cbn [read_request]. change (sent recv k ++ recv k) with (sent recv (S k)).
  unfold contains at 1. rewrite Hi, Hparse.
  rewrite bool_decide_eq_true_2 by done. rewrite Hcl, Hint.
  replace (fuel - S k) with ((j - S k) + S (fuel - S j)) by lia.
  rewrite (read_body_until_enough (i + 4) content_length j Henough); [done | lia | done].
Qed.

Section Connection.
Context {W : Type} `{OS W}.


(** X19. When the peer closes before any blank line has come, the read
    loop returns what was received, and the server answers it as it
    answers a complete request: the missing blank line is no error. *)
Theorem closed_before_blank_line_is_answered (eof fuel : nat) (w : W) :
  recv eof = [] →
  (∀ i, i < eof → recv i ≠ []) →
  contains CRLFCRLF_b (sent recv eof) = false →
  eof < fuel →
  read_request recv fuel 0 [] = Some (Received (sent recv eof))
  ∧ handle_connection recv fuel w
    = Some (fst (respond (sent recv eof) w),
            Some (serialize (snd (respond (sent recv eof) w)))).
Proof.
  intros Hclosed Hopen Hnone Hfuel.
  assert (read_request recv fuel 0 [] = Some (Received (sent recv eof))) as Hr.
  { replace fuel with (eof + S (fuel - S eof)) by lia.
    rewrite (read_request_skip eof Hnone Hopen eof 0) by lia.
    cbn [read_request]. by rewrite Hclosed, app_nil_r, Hnone. }
  split; [done|]. unfold handle_connection. rewrite Hr.
  by destruct (respond (sent recv eof) w).
Qed.
End Connection.
End MoreReaderFacts.

Lemma read_request_returns_what_was_received_witness :
  read_request put_in_pieces 9 0 [] = Some (Received (sent put_in_pieces 3))
  ∧ ∃ n : nat, (n ≤ 9)%nat ∧ sent put_in_pieces 3 = sent put_in_pieces n
         ∧ (contains CRLFCRLF_b (sent put_in_pieces 3) = true
            ∨ ((0 < n)%nat ∧ put_in_pieces (n - 1)%nat = [])).
Proof.
  assert (read_request put_in_pieces 9 0 [] = Some (Received (sent put_in_pieces 3)))
    as Hr by reflexivity.
  split; [exact Hr|].
  exact (read_request_returns_what_was_received put_in_pieces 9 _ Hr).
Defined.

Lemma content_length_is_awaited_witness :
  read_request put_in_pieces 9 0 [] = Some (Received (sent put_in_pieces 3))
  ∧ ((10 ≤ Z.of_nat (len (B "0123456789ab")))%Z
     ∨ ∃ n : nat, (0 < n)%nat ∧ put_in_pieces (n - 1)%nat = []
            ∧ sent put_in_pieces 3 = sent put_in_pieces n).
Proof.
  assert (read_request put_in_pieces 9 0 [] = Some (Received (sent put_in_pieces 3)))
    as Hr by reflexivity.
  split; [exact Hr|].
  apply (content_length_is_awaited put_in_pieces 9 (sent put_in_pieces 3)
           (Request (T "PUT") (T "/notes/a.txt") (T "HTTP/1.1")
              (<[T "content-length" := T "10"]> ∅) (B "0123456789ab"))
           (T "10") 10%Z Hr).
  - reflexivity.
  - reflexivity.
  - vm_compute. apply list_elem_of_further, list_elem_of_here.
  - reflexivity.
  - reflexivity.
Defined.

Lemma no_body_expected_stops_at_blank_line_witness :
  read_request get_in_pieces 3 0 [] = Some (Received (sent get_in_pieces 3))
  ∧ sent get_in_pieces 3
    = B "GET /index.html HTTP/1.1" ++ CRLF_b ++ B "Host: x" ++ CRLFCRLF_b ++ B "extra".
Proof.
  split; [|reflexivity].
  apply (no_body_expected_stops_at_blank_line get_in_pieces 2 3).
  - reflexivity.
  - reflexivity.
  - intros [|[|i]] Hi; [discriminate | discriminate | lia].
  - intros rq Hrq Hm. vm_compute in Hrq. injection Hrq as <-. vm_compute in Hm.
    repeat (apply elem_of_cons in Hm as [Hm|Hm]; [discriminate Hm|]).
    by apply elem_of_nil in Hm.
  - lia.
Defined.

Lemma reads_until_content_length_witness :
  read_request put_in_pieces 4 0 [] = Some (Received (sent put_in_pieces 3))
  ∧ body_part (sent put_in_pieces 3) = B "0123456789ab".
Proof.
  split; [|reflexivity].
  apply (reads_until_content_length put_in_pieces 0 3 4 45
           (Request (T "PUT") (T "/notes/a.txt") (T "HTTP/1.1")
              (<[T "content-length" := T "10"]> ∅) (B "0123"))
           (T "10") 10%Z).
  - reflexivity.
  - intros m Hm. lia.
  - reflexivity.
  - reflexivity.
  - vm_compute. apply list_elem_of_further, list_elem_of_here.
  - reflexivity.
  - reflexivity.
  - lia.
  - intros [|[|[|m]]] Hm; [lia | | | lia]; (split; [vm_compute; reflexivity | discriminate]).
  - vm_compute. discriminate.
  - lia.
Defined.


Lemma closed_before_blank_line_is_answered_witness :
  read_request get_cut_short 3 0 [] = Some (Received (sent get_cut_short 2))
  ∧ handle_connection get_cut_short 3 site_world
    = Some (site_world, Some (serialize (ok_file (T "text/html") 5 (B "hello")))).
Proof.
  destruct (closed_before_blank_line_is_answered get_cut_short 2 3 site_world)
    as [Hr Hc].
  - reflexivity.
  - intros [|[|i]] Hi; [discriminate | discriminate | lia].
  - reflexivity.
  - lia.
  - split; [exact Hr|]. rewrite Hc. reflexivity.
Defined.

(* ===================================================================== *)
(** ** Further properties: the response on the wire *)
(* ===================================================================== *)

Lemma byte_of_to_N (y : byte) : byte_of_N (Byte.to_N y) = y.
Proof. by destruct y. Qed.

Lemma byte_of_N_not_cr (n : N) : n < 256 → n ≠ 13 → byte_of_N n ≠ x0d.
Proof.
  intros Hn Hne Heq. destruct (Byte.of_N n) as [y|] eqn:Ey.
  - apply Byte.to_of_N in Ey. subst n. rewrite byte_of_to_N in Heq. by subst y.
  - apply Byte.of_N_None_iff in Ey. lia.
Qed.

Lemma utf8_encode_app (a b : text) : utf8_encode (a ++ b) = utf8_encode a ++ utf8_encode b.
Proof. unfold utf8_encode. by rewrite map_app, concat_app. Qed.

Lemma byte_of_N_sum_not_cr (base x bound : N) :
  x < bound → 14 ≤ base → base + bound ≤ 256 → byte_of_N (base + x) ≠ x0d.
Proof. intros Hx Hbase Hbound. apply byte_of_N_not_cr; lia. Qed.

Lemma utf8_encode_char_no_cr (c : N) :
  c < 1114112 → c ≠ 13 → Forall (λ b, b ≠ x0d) (utf8_encode_char c).
Proof.
  intros Hc Hne. unfold utf8_encode_char.
  assert (∀ x, byte_of_N (128 + x mod 64) ≠ x0d) as Hcont.
  { intros x. apply (byte_of_N_sum_not_cr 128 _ 64); [|lia|lia].
    apply N.mod_upper_bound. lia. }
  destruct (N.ltb_spec c 128); [|destruct (N.ltb_spec c 2048);
    [|destruct (N.ltb_spec c 65536)]].
  - repeat constructor. apply byte_of_N_not_cr; lia.
  - repeat constructor; [|apply Hcont].
    apply (byte_of_N_sum_not_cr 192 _ 32); [|lia|lia].
    apply N.Div0.div_lt_upper_bound. lia.
  - repeat constructor; [|apply Hcont..].
    apply (byte_of_N_sum_not_cr 224 _ 16); [|lia|lia].
    apply N.Div0.div_lt_upper_bound. lia.
  - repeat constructor; [|apply Hcont..].
    apply (byte_of_N_sum_not_cr 240 _ 5); [|lia|lia].
    apply N.Div0.div_lt_upper_bound. lia.
Qed.

Lemma utf8_encode_no_cr (s : text) : no_cr s → Forall (λ b, b ≠ x0d) (utf8_encode s).
Proof.
  unfold no_cr, utf8_encode. induction 1 as [|c s [Hc Hne] _ IH]; [constructor|].
  cbn [map concat]. apply Forall_app. split; [by apply utf8_encode_char_no_cr | done].
Qed.

Lemma utf8_encode_not_nil (s : text) : s ≠ [] → utf8_encode s ≠ [].
Proof.
  destruct s as [|c s]; [done|]. intros _. unfold utf8_encode, utf8_encode_char.
  cbn [map concat]. by repeat case_match.
Qed.

Lemma text_of_uint_no_cr (d : Decimal.uint) : no_cr (text_of_uint d).
Proof.
  unfold no_cr. induction d; cbn [text_of_uint]; constructor; (done || lia).
Qed.

Section Framing.
Local Open Scope nat_scope.
Implicit Types (l s b : bytes) (lines : list bytes).

Lemma find_blank_line_skip l s :
  Forall (λ x, x ≠ x0d) l →
  find CRLFCRLF_b (l ++ s) = (λ i, length l + i) <$> find CRLFCRLF_b s.
Proof.
  induction 1 as [|x l Hx _ IH].
  - simpl app. destruct (find CRLFCRLF_b s); reflexivity.
  - simpl app. rewrite find_cons. unfold CRLFCRLF_b at 1. cbn [startswith].
    rewrite decide_False by done. fold CRLFCRLF_b. rewrite IH.
    destruct (find CRLFCRLF_b s); reflexivity.
Qed.

Lemma find_blank_line_crlf (y : byte) s :
  y ≠ x0d →
  find CRLFCRLF_b (CRLF_b ++ y :: s) = (λ i, 2 + i) <$> find CRLFCRLF_b (y :: s).
Proof.
  intros Hy. unfold CRLF_b. simpl app. do 2 rewrite find_cons.
  unfold CRLFCRLF_b at 1 2. cbn [startswith].
  rewrite (decide_True (P := x0d = x0d)) by done.
  rewrite (decide_True (P := x0a = x0a)) by done.
  rewrite (decide_False (P := x0d = y)) by done.
  rewrite (decide_False (P := x0d = x0a)) by done.
  fold CRLFCRLF_b. destruct (find CRLFCRLF_b (y :: s)); reflexivity.
Qed.

Lemma find_blank_line_here s : find CRLFCRLF_b (CRLF_b ++ CRLF_b ++ s) = Some 0.
Proof.
  unfold CRLF_b. simpl app. rewrite find_cons. unfold CRLFCRLF_b. cbn [startswith].
  rewrite (decide_True (P := x0d = x0d)) by done.
  by rewrite (decide_True (P := x0a = x0a)) by done.
Qed.

Lemma crlf_lines_cons l lines : crlf_lines (l :: lines) = l ++ CRLF_b ++ crlf_lines lines.
Proof. unfold crlf_lines. cbn [map concat]. by rewrite <- (assoc_L (++)). Qed.

(** In a head of non-empty lines without carriage returns, the first
    blank line is the one that ends the head. *)
Lemma find_blank_line lines b :
  lines ≠ [] →
  Forall (λ l, l ≠ [] ∧ Forall (λ x, x ≠ x0d) l) lines →
  find CRLFCRLF_b (crlf_lines lines ++ CRLF_b ++ b) = Some (length (crlf_lines lines) - 2).
Proof.
  intros Hne Hlines. induction Hlines as [|l lines [_ Hl] Hrest IH]; [done|].
  rewrite crlf_lines_cons, <- !(assoc_L (++)). rewrite (find_blank_line_skip _ _ Hl).
  destruct lines as [|l2 lines].
  - change (crlf_lines []) with (@nil byte). rewrite app_nil_r.
    change ([] ++ CRLF_b ++ b) with (CRLF_b ++ b).
    rewrite find_blank_line_here. cbn [fmap option_fmap option_map].
    rewrite length_app. cbn [length CRLF_b]. f_equal. lia.
  - specialize (IH ltac:(done)). rewrite crlf_lines_cons in IH |- *.
    apply Forall_cons in Hrest as [[Hl2 Hx] _].
    destruct l2 as [|y l2]; [done|]. apply Forall_cons in Hx as [Hy _].
    rewrite <- !(assoc_L (++)) in IH |- *. simpl ((y :: l2) ++ _) in *.
    rewrite (find_blank_line_crlf y _ Hy), IH. cbn.
    rewrite !length_app. cbn. rewrite !length_app. cbn. f_equal. lia.
Qed.
End Framing.

Lemma build_response_lines (code : nat) (reason : text) (hs : list (text * text))
    (b : bytes) :
  build_response code reason hs b
  = crlf_lines (response_head_lines code reason hs) ++ CRLF_b ++ b.
Proof.
  unfold build_response, response_head_lines. rewrite crlf_lines_cons.
  rewrite !utf8_encode_app. change (utf8_encode CRLF) with CRLF_b.
  rewrite <- !(assoc_L (++)). do 5 f_equal.
  induction hs as [|kv hs IH]; [done|].
  cbn [map concat]. rewrite crlf_lines_cons, !utf8_encode_app.
  change (utf8_encode CRLF) with CRLF_b.
  rewrite <- !(assoc_L (++)). do 4 f_equal. apply IH.
Qed.

Lemma response_head_lines_clean (code : nat) (reason : text) (hs : list (text * text)) :
  no_cr reason →
  Forall (λ kv, no_cr (fst kv) ∧ no_cr (snd kv)) hs →
  Forall (λ l, l ≠ [] ∧ Forall (λ x, x ≠ x0d) l) (response_head_lines code reason hs).
Proof.
  intros Hreason Hhs. unfold response_head_lines. constructor.
  - split; [by apply utf8_encode_not_nil|]. apply utf8_encode_no_cr.
    unfold no_cr in *. rewrite !Forall_app. repeat split; [| |  | done].
    + apply (bool_decide_unpack _). vm_compute. exact I.
    + apply text_of_uint_no_cr.
    + apply (bool_decide_unpack _). vm_compute. exact I.
  - apply Forall_map. eapply Forall_impl; [exact Hhs|]. intros [k v] [Hk Hv].
    cbn [fst snd]. split.
    + apply utf8_encode_not_nil. by destruct k.
    + apply utf8_encode_no_cr. unfold no_cr in *. rewrite !Forall_app.
      repeat split; [done | | done]. apply (bool_decide_unpack _). vm_compute. exact I.
Qed.

(** X20. A response whose reason phrase and header names and values have
    no carriage return is cut by the request parser's own rule (the first
    blank line) exactly between head and body: what follows the first
    blank line is the body, byte for byte, whatever the body contains. *)
Theorem body_follows_first_blank_line (code : nat) (reason : text)
    (hs : list (text * text)) (b : bytes) :
  no_cr reason →
  Forall (λ kv, no_cr (fst kv) ∧ no_cr (snd kv)) hs →
  contains CRLFCRLF_b (build_response code reason hs b) = true
  ∧ body_part (build_response code reason hs b) = b
  ∧ header_part (build_response code reason hs b) ++ CRLFCRLF_b
    = build_response code reason hs [].
Proof.
  intros Hreason Hhs.
  pose proof (response_head_lines_clean code reason hs Hreason Hhs) as Hclean.
  pose proof (find_blank_line (response_head_lines code reason hs) b
                ltac:(done) Hclean) as Hfind.
  rewrite <- build_response_lines in Hfind.
  assert (2 ≤ length (crlf_lines (response_head_lines code reason hs)))%nat as Hlen.
  { unfold response_head_lines. rewrite crlf_lines_cons, !length_app. cbn. lia. }
  set (head := crlf_lines (response_head_lines code reason hs)) in *.
  assert (contains CRLFCRLF_b (build_response code reason hs b) = true) as Hc.
  { unfold contains. by rewrite Hfind. }
  assert (body_part (build_response code reason hs b) = b) as Hbody.
  { unfold body_part, split_once. rewrite Hc, Hfind. cbn [nth].
    rewrite build_response_lines. fold head.
    rewrite (assoc_L (++)), drop_app_length'; [done|].
    rewrite length_app. cbn. lia. }
  split; [done|]. split; [done|].
  pose proof (find_Some _ _ _ Hfind) as Hcut.
  unfold header_part, split_once. rewrite Hc, Hfind. cbn [hd].
  unfold body_part, split_once in Hbody. rewrite Hc, Hfind in Hbody. cbn [nth] in Hbody.
  rewrite Hbody in Hcut. rewrite (build_response_lines code reason hs b) in Hcut at 1.
  rewrite (build_response_lines code reason hs []). fold head in Hcut |- *.
  rewrite app_nil_r. rewrite !(assoc_L (++)) in Hcut.
  apply app_inv_tail in Hcut. by rewrite Hcut.
Qed.

Lemma body_follows_first_blank_line_witness :
  no_cr (T "OK")
  ∧ body_part (build_response 200 (T "OK")
                 [(T "Content-Type", T "text/plain"); (T "Content-Length", T "6")]
                 (CRLFCRLF_b ++ B "ab"))
    = CRLFCRLF_b ++ B "ab".
Proof.
  assert (no_cr (T "OK")) as Hreason
    by (unfold no_cr; apply (bool_decide_unpack _); vm_compute; exact I).
  split; [exact Hreason|].
  apply (body_follows_first_blank_line 200 (T "OK")
           [(T "Content-Type", T "text/plain"); (T "Content-Length", T "6")]
           (CRLFCRLF_b ++ B "ab") Hreason).
  unfold no_cr. apply (bool_decide_unpack _). vm_compute. exact I.
Defined.

(* ===================================================================== *)
(** ** Further properties: the whole connection *)
(* ===================================================================== *)

Section WholeConnection.
Context `{PyLib} {W : Type} `{OS W}.
Variable recv : nat → bytes.
Local Open Scope nat_scope.

(** X21. For a request that is neither POST nor PUT, the answer is fixed
    by the header block alone: the connection is answered as the header
    block followed by a blank line would be, however the bytes were cut
    into reads and whatever came after the blank line in the last read. *)
Theorem answer_depends_on_header_block (k fuel : nat) (w : W) :
  contains CRLFCRLF_b (sent recv k) = false →
  contains CRLFCRLF_b (sent recv (S k)) = true →
  (∀ i, i < k → recv i ≠ []) →
  (∀ rq, parse_request (sent recv (S k)) = Some rq →
         rq_method rq ≠ T "POST" ∧ rq_method rq ≠ T "PUT") →
  k < fuel →
  handle_connection recv fuel w
  = Some (fst (respond (header_part (sent recv (S k)) ++ CRLFCRLF_b) w),
          Some (serialize
                  (snd (respond (header_part (sent recv (S k)) ++ CRLFCRLF_b) w)))).
Proof.
  intros Hbefore Hnow Hopen Hmethod Hfuel.
  assert (read_request recv fuel 0 [] = Some (Received (sent recv (S k)))) as Hr.
  { replace fuel with (k + S (fuel - S k)) by lia.
    rewrite (read_request_skip recv k Hbefore Hopen k 0) by lia.
    cbn [read_request]. change (sent recv k ++ recv k) with (sent recv (S k)).
    rewrite Hnow. destruct (parse_request (sent recv (S k))) as [rq|]; [|done].
    destruct (Hmethod rq eq_refl) as [Hpost Hput].
    rewrite bool_decide_eq_false_2; [done|].
    rewrite !elem_of_cons, elem_of_nil. tauto. }
  set (raw := sent recv (S k)) in *.
  set (block := header_part raw ++ CRLFCRLF_b).
  assert (raw = block ++ body_part raw) as Hcut.
  { unfold block, header_part, body_part. rewrite Hnow.
    destruct (split_once_contains _ _ Hnow) as (i & Hi & ->). cbn [hd nth].
    rewrite <- (assoc_L (++)). by apply find_Some. }
  assert (contains CRLFCRLF_b block = true) as Hblock.
  { apply contains_spec. exists (header_part raw), []. by rewrite app_nil_r. }
  assert (respond raw w = respond block w) as Hsame.
  { rewrite Hcut at 1. apply respond_app; [done|].
    intros rq Hrq. apply (Hmethod (Request (rq_method rq) (rq_path rq)
                                     (rq_version rq) (rq_headers rq)
                                     (rq_body rq ++ body_part raw))).
    rewrite Hcut at 1. by rewrite (parse_request_app _ _ Hblock), Hrq. }
  unfold handle_connection. rewrite Hr, Hsame. by destruct (respond block w).
Qed.
End WholeConnection.

Lemma answer_depends_on_header_block_witness :
  handle_connection get_in_pieces 3 site_world
  = Some (site_world,
          Some (serialize
                  (snd (respond (B "GET /index.html HTTP/1.1" ++ CRLF_b ++ B "Host: x"
                                 ++ CRLFCRLF_b) site_world)))).
Proof.
  rewrite (answer_depends_on_header_block get_in_pieces 2 3 site_world).
  - reflexivity.
  - reflexivity.
  - reflexivity.
  - intros [|[|i]] Hi; [discriminate | discriminate | lia].
  - intros rq Hrq. vm_compute in Hrq. injection Hrq as <-.
    split; vm_compute; discriminate.
  - lia.
Defined.
